(** * KPI aggregation processor

    A shallow embedding of [backend/business/kpis/processor.py]: the
    window resolver [get_timestamps], the retention resolver
    [get_aggregations_to_keep], the upsert-with-scan procedure
    [compute_kpi_values_for_aggregation_kind], and the two entry points of
    the [Processor] class, [process_tick] and [restore_from_db].

    Python exceptions are modelled by a result type, the mutable processor
    object and the database session by explicit state, and every call to a
    collaborator is recorded in a trace of events.  The exceptions modelled
    are those the processor's own code can raise: [AttributeError] on an
    unknown granularity, and the [ValueError] and [OverflowError] of the
    [datetime] values it builds, moves and converts to timestamps.  Calls
    to the persistence layer, to [Period] and to KPI computations are taken
    to return. *)

From Stdlib Require Import ZArith List String Ascii Bool Lia.
Import ListNotations.
Open Scope string_scope.
Open Scope list_scope.
Open Scope Z_scope.

Set Implicit Arguments.

(** ** Exceptions and fallible values *)

Inductive exn : Type :=
| AttributeError
| ValueError
| OverflowError.

Inductive result (A : Type) : Type :=
| Ok (a : A)
| Raise (e : exn).

Arguments Ok {A} a.
Arguments Raise {A} e.

Definition rbind {A B : Type} (r : result A) (f : A -> result B) : result B :=
  match r with
  | Ok a => f a
  | Raise e => Raise e
  end.

Notation "'do' x <- r ; k" := (rbind r (fun x => k))
  (at level 10, x name, r at level 100, k at level 200).

(** ** The part of Python's [datetime] the processor uses

    Every [datetime] the processor builds is at midnight and is only ever
    moved by whole days, so a value is a calendar date.  The functions below
    follow CPython's [datetime.py]: proleptic Gregorian ordinals with day 1
    = 0001-01-01. *)

Module PyDatetime.

Definition MINYEAR : Z := 1.
Definition MAXYEAR : Z := 9999.
Definition MAXORDINAL : Z := 3652059.

Definition is_leap (y : Z) : bool :=
  (y mod 4 =? 0) && (negb (y mod 100 =? 0) || (y mod 400 =? 0)).

Definition days_in_month (y m : Z) : Z :=
  if m =? 2 then (if is_leap y then 29 else 28)
  else if (m =? 4) || (m =? 6) || (m =? 9) || (m =? 11) then 30
  else 31.

Definition days_before_year (y : Z) : Z :=
  let p := y - 1 in p * 365 + p / 4 - p / 100 + p / 400.

Definition days_before_month_common (m : Z) : Z :=
  nth (Z.to_nat m) [0; 0; 31; 59; 90; 120; 151; 181; 212; 243; 273; 304; 334] 0.

Definition days_before_month (y m : Z) : Z :=
  days_before_month_common m + (if (2 <? m) && is_leap y then 1 else 0).

Definition ymd2ord (y m d : Z) : Z :=
  days_before_year y + days_before_month y m + d.

Record datetime : Type := { dt_year : Z; dt_month : Z; dt_day : Z }.

(** [_ord2ymd] of CPython. *)
Definition ord2ymd (ordinal : Z) : datetime :=
  let n := ordinal - 1 in
  let n400 := n / 146097 in
  let n := n mod 146097 in
  let n100 := n / 36524 in
  let n := n mod 36524 in
  let n4 := n / 1461 in
  let n := n mod 1461 in
  let n1 := n / 365 in
  let n := n mod 365 in
  let y := n400 * 400 + 1 + n100 * 100 + n4 * 4 + n1 in
  if (n1 =? 4) || (n100 =? 4) then
    {| dt_year := y - 1; dt_month := 12; dt_day := 31 |}
  else
    let leapyear := (n1 =? 3) && (negb (n4 =? 24) || (n100 =? 3)) in
    let m := Z.shiftr (n + 50) 5 in
    let preceding :=
      days_before_month_common m + (if (2 <? m) && leapyear then 1 else 0) in
    if n <? preceding then
      let m' := m - 1 in
      let preceding' :=
        preceding
        - (nth (Z.to_nat m') [0; 31; 28; 31; 30; 31; 30; 31; 31; 30; 31; 30; 31] 0
           + (if (m' =? 2) && leapyear then 1 else 0)) in
      {| dt_year := y; dt_month := m'; dt_day := n - preceding' + 1 |}
    else
      {| dt_year := y; dt_month := m; dt_day := n - preceding + 1 |}.

(** The arguments of the constructor are converted to C [int]s (32 bits)
    before they are looked at. *)
Definition fits_int (x : Z) : bool :=
  (- 2147483648 <=? x) && (x <=? 2147483647).

(** [datetime(year=y, month=m, day=d)]: [OverflowError] on an argument that
    does not fit a C [int]; otherwise the constructor checks its fields and
    raises [ValueError] on a year, month or day out of range. *)
Definition new (y m d : Z) : result datetime :=
  if fits_int y && fits_int m && fits_int d then
    if (MINYEAR <=? y) && (y <=? MAXYEAR)
       && (1 <=? m) && (m <=? 12)
       && (1 <=? d) && (d <=? days_in_month y m)
    then Ok {| dt_year := y; dt_month := m; dt_day := d |}
    else Raise ValueError
  else Raise OverflowError.

Definition toordinal (dt : datetime) : Z :=
  ymd2ord (dt_year dt) (dt_month dt) (dt_day dt).

(** [dt + timedelta(days=n)]: [OverflowError] when the date leaves
    0001-01-01 .. 9999-12-31 (a [timedelta] is limited to 999999999 days
    and raises [OverflowError] beyond, where the sum would too). *)
Definition add_days (dt : datetime) (n : Z) : result datetime :=
  let o := toordinal dt + n in
  if (1 <=? o) && (o <=? MAXORDINAL) then Ok (ord2ymd o)
  else Raise OverflowError.

(** [dt.isoweekday()]: Monday is 1, Sunday is 7. *)
Definition isoweekday (dt : datetime) : Z :=
  (toordinal dt + 6) mod 7 + 1.

End PyDatetime.

Import PyDatetime.

(** [dateutil.relativedelta], reduced to the two fields the processor sets:
    [weeks=w] is stored by dateutil as [days = 7 * w]. *)
Record relativedelta : Type := { rd_months : Z; rd_days : Z }.

Definition relativedelta_days (d : Z) : relativedelta :=
  {| rd_months := 0; rd_days := d |}.
Definition relativedelta_weeks (w : Z) : relativedelta :=
  {| rd_months := 0; rd_days := 7 * w |}.
Definition relativedelta_months (m : Z) : relativedelta :=
  {| rd_months := m; rd_days := 0 |}.

(** ** Collaborators of the processor *)

(** The [Period] class is not in the sources and is taken as a parameter:
    what the processor uses of it is equality ([==] and [!=]), the four
    calendar fields read by [get_timestamps], truncation to a bucket label
    and shifting by a relative offset. *)
Class PeriodOps (Period : Type) : Type := {
  period_eq_dec : forall p q : Period, {p = q} + {p <> q};
  year : Period -> Z;
  month : Period -> Z;
  day : Period -> Z;
  weekday : Period -> Z;
  get_truncated_value : Period -> string -> string;
  get_shifted : Period -> relativedelta -> Period
}.

(** The dataclass returned by the window resolver. *)
Record Timestamps : Type := { start : Z; stop : Z }.

(** Modelled from the spec: the [Value] class, missing from the sources, with
    the two fields the processor reads and writes: a bucket label and the
    number computed for it. *)
Record Value : Type := { agg_value : string; kpi_value : Z }.

Definition str_in (x : string) (l : list string) : bool :=
  existsb (String.eqb x) l.

(** [l1] is an initial segment of [l2]. *)
Definition prefix {A : Type} (l1 l2 : list A) : Prop :=
  exists l3, l2 = l1 ++ l3.

Section Resolvers.

Context {Period : Type} {PO : PeriodOps Period}.

(** [datetime.timestamp()] followed by [int]: the conversion of a naive
    local midnight to seconds since the epoch depends on the time zone of
    the host and is left as a parameter.  It can raise: CPython looks up to
    a day around the instant, and raises [ValueError] where that leaves the
    years 1 to 9999. *)
Variable timestamp : datetime -> result Z.

Definition get_aggregations_to_keep (agg_kind : string) (now : Period)
  : result (option (list string)) :=
  if String.eqb agg_kind "D" then
    Ok (Some (map (fun delta : nat =>
                     get_truncated_value
                       (get_shifted now (relativedelta_days (- Z.of_nat delta)))
                       agg_kind)
                  (seq 0 7)))
  else if String.eqb agg_kind "W" then
    Ok (Some (map (fun delta : nat =>
                     get_truncated_value
                       (get_shifted now (relativedelta_weeks (- Z.of_nat delta)))
                       agg_kind)
                  (seq 0 4)))
  else if String.eqb agg_kind "M" then
    Ok (Some (map (fun delta : nat =>
                     get_truncated_value
                       (get_shifted now (relativedelta_months (- Z.of_nat delta)))
                       agg_kind)
                  (seq 0 12)))
  else if String.eqb agg_kind "Y" then
    Ok None
  else Raise AttributeError.

Definition get_timestamps (agg_kind : string) (now : Period) : result Timestamps :=
  if String.eqb agg_kind "D" then
    do start_dt <- PyDatetime.new (year now) (month now) (day now);
    do start_ts <- timestamp start_dt;
    do stop_dt <- add_days start_dt 1;
    do stop_ts <- timestamp stop_dt;
    Ok {| start := start_ts; stop := stop_ts |}
  else if String.eqb agg_kind "W" then
    do midnight <- PyDatetime.new (year now) (month now) (day now);
    do start_dt <- add_days midnight (1 - weekday now);
    do start_ts <- timestamp start_dt;
    do stop_dt <- add_days start_dt 7;
    do stop_ts <- timestamp stop_dt;
    Ok {| start := start_ts; stop := stop_ts |}
  else if String.eqb agg_kind "M" then
    do start_dt <- PyDatetime.new (year now) (month now) 1;
    do stop_dt <- PyDatetime.new (year now) (month now + 1) 1;
    do start_ts <- timestamp start_dt;
    do stop_ts <- timestamp stop_dt;
    Ok {| start := start_ts; stop := stop_ts |}
  else if String.eqb agg_kind "Y" then
    do start_dt <- PyDatetime.new (year now) 1 1;
    do stop_dt <- PyDatetime.new (year now + 1) 1 1;
    do start_ts <- timestamp start_dt;
    do stop_ts <- timestamp stop_dt;
    Ok {| start := start_ts; stop := stop_ts |}
  else Raise AttributeError.

End Resolvers.

(** ** Effects: state, exceptions and a trace of events

    A computation runs on a state, ends with a value or a raised exception,
    and leaves the state it reached (a Python exception does not undo the
    assignments and database calls made before it) together with the events
    it emitted, oldest first. *)

Section Effects.

Variable event : Type.

Record outcome (S A : Type) : Type :=
  { res : result A; final : S; emitted : list event }.

Definition Eff (S A : Type) : Type := S -> outcome S A.

Definition ret {S A} (a : A) : Eff S A :=
  fun s => {| res := Ok a; final := s; emitted := [] |}.

Definition raise {S A} (e : exn) : Eff S A :=
  fun s => {| res := Raise e; final := s; emitted := [] |}.

Definition bind {S A B} (m : Eff S A) (f : A -> Eff S B) : Eff S B :=
  fun s =>
    let o := m s in
    match res o with
    | Ok a =>
        let o' := f a (final o) in
        {| res := res o'; final := final o'; emitted := emitted o ++ emitted o' |}
    | Raise e => {| res := Raise e; final := final o; emitted := emitted o |}
    end.

Definition emit {S} (e : event) : Eff S unit :=
  fun s => {| res := Ok tt; final := s; emitted := [e] |}.

Definition get_state {S} : Eff S S :=
  fun s => {| res := Ok s; final := s; emitted := [] |}.

Definition modify_state {S} (f : S -> S) : Eff S unit :=
  fun s => {| res := Ok tt; final := f s; emitted := [] |}.

Definition lift_result {S A} (r : result A) : Eff S A :=
  match r with
  | Ok a => ret a
  | Raise e => raise e
  end.

(** A [for] loop that threads an accumulator (a local variable assigned in
    the body). *)
Fixpoint foldM {S X B} (f : B -> X -> Eff S B) (l : list X) (b : B) : Eff S B :=
  match l with
  | [] => ret b
  | x :: l' => bind (f b x) (foldM f l')
  end.

Definition for_each {S X} (l : list X) (f : X -> Eff S unit) : Eff S unit :=
  foldM (fun _ x => f x) l tt.

(** Run a computation on the second component of a pair of states. *)
Definition on_snd {S1 S2 A} (m : Eff S2 A) : Eff (S1 * S2) A :=
  fun s =>
    let o := m (snd s) in
    {| res := res o; final := (fst s, final o); emitted := emitted o |}.

End Effects.

Arguments ret {event S A} a.
Arguments raise {event S A} e.
Arguments get_state {event S}.
Arguments modify_state {event S} f.
Arguments lift_result {event S A} r.

Notation "x <- m ;; k" := (bind m (fun x => k))
  (at level 61, m at next level, right associativity).
Notation "m ;; k" := (bind m (fun _ => k))
  (at level 61, right associativity).

Section Processor.

Context {Period : Type} {PO : PeriodOps Period}.
Variable timestamp : datetime -> result Z.

(** The raw event records a KPI aggregates; only KPIs look inside. *)
Variable RawData : Type.

(** Modelled from the spec: the [Kpi] class, missing from the sources; a
    stable identifier and the computation of a number for a granularity and
    a window, a function of the raw events. *)
Record Kpi : Type :=
  { unique_id : Z;
    get_value : string -> Z -> Z -> RawData -> Z }.

(** Modelled from the spec: a persisted aggregate
    [(kpi_id, agg_kind, agg_value, kpi_value)] of the storage layer, missing
    from the sources.  The stored aggregates are a list, so that a state
    where two of them share a key can be written down. *)
Record KpiValueRow : Type :=
  { row_kpi_id : Z;
    row_agg_kind : string;
    row_agg_value : string;
    row_kpi_value : Z }.

(** Modelled from the spec: what a database [Session] gives access to, the
    stored aggregates, the persisted period marker and the raw events. *)
Record Session : Type :=
  { kpi_values : list KpiValueRow;
    last_current_period : option Period;
    raw_data : RawData }.

(** Calls made to collaborators, as a test double of each would record
    them; [EvCompute] marks the entry of
    [compute_kpi_values_for_aggregation_kind] with its arguments. *)
Inductive event : Type :=
| EvCompute (now : Period) (kpi_id : Z) (agg_kind : string)
| EvGetKpiValues (kpi_id : Z) (agg_kind : string)
| EvDeleteKpiValue (kpi_id : Z) (agg_kind agg_value : string)
| EvUpdateKpiValue (kpi_id : Z) (agg_kind agg_value : string) (kpi_value : Z)
| EvAddKpiValue (kpi_id : Z) (agg_kind agg_value : string) (kpi_value : Z)
| EvGetLastCurrentPeriod
| EvKpiGetValue (kpi_id : Z) (agg_kind : string) (start_ts stop_ts : Z).

Definition row_in (kpi_id : Z) (agg_kind : string) (r : KpiValueRow) : bool :=
  (row_kpi_id r =? kpi_id) && String.eqb (row_agg_kind r) agg_kind.

Definition row_is (kpi_id : Z) (agg_kind agg_value : string) (r : KpiValueRow) : bool :=
  row_in kpi_id agg_kind r && String.eqb (row_agg_value r) agg_value.

Definition set_kpi_value (v : Z) (r : KpiValueRow) : KpiValueRow :=
  {| row_kpi_id := row_kpi_id r;
     row_agg_kind := row_agg_kind r;
     row_agg_value := row_agg_value r;
     row_kpi_value := v |}.

Definition with_kpi_values (s : Session) (rows : list KpiValueRow) : Session :=
  {| kpi_values := rows;
     last_current_period := last_current_period s;
     raw_data := raw_data s |}.

(** Modelled from the spec: [Persister.get_kpi_values], missing from the
    sources; the persisted Values of a [(kpi_id, agg_kind)] pair. *)
Definition Persister_get_kpi_values (kpi_id : Z) (agg_kind : string)
  : Eff event Session (list Value) :=
  emit (EvGetKpiValues kpi_id agg_kind) ;;
  s <- get_state ;;
  ret (map (fun r => {| agg_value := row_agg_value r;
                        kpi_value := row_kpi_value r |})
           (filter (row_in kpi_id agg_kind) (kpi_values s))).

(** Modelled from the spec: [Persister.delete_kpi_value], missing from
    the sources; removes what is stored under the key
    [(kpi_id, agg_kind, agg_value)]. *)
Definition Persister_delete_kpi_value (kpi_id : Z) (agg_kind agg_value : string)
  : Eff event Session unit :=
  emit (EvDeleteKpiValue kpi_id agg_kind agg_value) ;;
  modify_state (fun s =>
    with_kpi_values s
      (filter (fun r => negb (row_is kpi_id agg_kind agg_value r))
              (kpi_values s))).

(** Modelled from the spec: [Persister.update_kpi_value], missing from
    the sources; stores a new number under the key
    [(kpi_id, agg_kind, agg_value)]. *)
Definition Persister_update_kpi_value (kpi_id : Z) (agg_kind agg_value : string)
  (v : Z) : Eff event Session unit :=
  emit (EvUpdateKpiValue kpi_id agg_kind agg_value v) ;;
  modify_state (fun s =>
    with_kpi_values s
      (map (fun r => if row_is kpi_id agg_kind agg_value r
                     then set_kpi_value v r else r)
           (kpi_values s))).

(** Modelled from the spec: [Persister.add_kpi_value], missing from the
    sources; creates a Value. *)
Definition Persister_add_kpi_value (kpi_id : Z) (agg_kind agg_value : string)
  (v : Z) : Eff event Session unit :=
  emit (EvAddKpiValue kpi_id agg_kind agg_value v) ;;
  modify_state (fun s =>
    with_kpi_values s
      (kpi_values s ++
       [{| row_kpi_id := kpi_id; row_agg_kind := agg_kind;
           row_agg_value := agg_value; row_kpi_value := v |}])).

(** Modelled from the spec: [Persister.get_last_current_period], missing
    from the sources; the persisted period marker, if any. *)
Definition Persister_get_last_current_period : Eff event Session (option Period) :=
  emit EvGetLastCurrentPeriod ;;
  s <- get_state ;;
  ret (last_current_period s).

(** [kpi.get_value(agg_kind, start_ts, stop_ts, session)]: reads the raw
    events through the session. *)
Definition kpi_get_value (kpi : Kpi) (agg_kind : string) (start_ts stop_ts : Z)
  : Eff event Session Z :=
  emit (EvKpiGetValue (unique_id kpi) agg_kind start_ts stop_ts) ;;
  s <- get_state ;;
  ret (get_value kpi agg_kind start_ts stop_ts (raw_data s)).

(** The test [aggregations_to_keep and value.agg_value not in
    aggregations_to_keep]: [None] and the empty list are falsy. *)
Definition to_delete (aggregations_to_keep : option (list string))
  (label : string) : bool :=
  match aggregations_to_keep with
  | None => false
  | Some [] => false
  | Some keep => negb (str_in label keep)
  end.

(** The body of the loop over the Values read at the start of the call;
    the accumulator is the local variable [value_updated]. *)
Definition scan_value (kpi : Kpi) (agg_kind : string)
  (current_agg_value : string) (aggregations_to_keep : option (list string))
  (timestamps : Timestamps) (value_updated : bool) (value : Value)
  : Eff event Session bool :=
  (if to_delete aggregations_to_keep (agg_value value) then
     Persister_delete_kpi_value (unique_id kpi) agg_kind (agg_value value)
   else ret tt) ;;
  if String.eqb (agg_value value) current_agg_value then
    v <- kpi_get_value kpi agg_kind (start timestamps) (stop timestamps) ;;
    Persister_update_kpi_value (unique_id kpi) agg_kind (agg_value value) v ;;
    ret true
  else ret value_updated.

Definition compute_kpi_values_for_aggregation_kind
  (now : Period) (kpi : Kpi) (agg_kind : string) : Eff event Session unit :=
  emit (EvCompute now (unique_id kpi) agg_kind) ;;
  values <- Persister_get_kpi_values (unique_id kpi) agg_kind ;;
  let current_agg_value := get_truncated_value now agg_kind in
  aggregations_to_keep <- lift_result (get_aggregations_to_keep agg_kind now) ;;
  timestamps <- lift_result (get_timestamps timestamp agg_kind now) ;;
  value_updated <-
    foldM (scan_value kpi agg_kind current_agg_value aggregations_to_keep
             timestamps)
          values false ;;
  if negb value_updated then
    v <- kpi_get_value kpi agg_kind (start timestamps) (stop timestamps) ;;
    Persister_add_kpi_value (unique_id kpi) agg_kind current_agg_value v
  else ret tt.

(** The fields of a [Processor] object. *)
Record Processor : Type :=
  { kpis : list Kpi;
    current_period : Period;
    current_day : string }.

(** [Processor.__init__]. *)
Definition init (now : Period) : Processor :=
  {| kpis := [];
     current_period := now;
     current_day := get_truncated_value now "D" |}.

Definition set_current_period (now : Period) (self : Processor) : Processor :=
  {| kpis := kpis self; current_period := now; current_day := current_day self |}.

Definition set_current_day (d : string) (self : Processor) : Processor :=
  {| kpis := kpis self; current_period := current_period self; current_day := d |}.

(** Methods run on the object and the session. *)
Definition Method (A : Type) : Type := Eff event (Processor * Session) A.

Definition get_self : Method Processor :=
  s <- get_state ;; ret (fst s).

Definition set_self (f : Processor -> Processor) : Method unit :=
  modify_state (fun s => (f (fst s), snd s)).

Definition process_tick (now : Period) : Method bool :=
  self <- get_self ;;
  if period_eq_dec (current_period self) now then ret false
  else
    let period_to_compute := current_period self in
    set_self (set_current_period now) ;;
    for_each (kpis self) (fun kpi =>
      for_each ["D"; "W"; "M"] (fun agg_kind =>
        on_snd (compute_kpi_values_for_aggregation_kind
                  period_to_compute kpi agg_kind))) ;;
    let now_day := get_truncated_value now "D" in
    self <- get_self ;;
    (if negb (String.eqb (current_day self) now_day) then
       for_each (kpis self) (fun kpi =>
         on_snd (compute_kpi_values_for_aggregation_kind
                   period_to_compute kpi "Y")) ;;
       set_self (set_current_day now_day)
     else ret tt) ;;
    ret true.

(** [if not lastPeriod] tests for [None]: a [Period] object is truthy. *)
Definition restore_from_db : Method unit :=
  lastPeriod <- on_snd Persister_get_last_current_period ;;
  match lastPeriod with
  | None => ret tt
  | Some lastPeriod =>
      self <- get_self ;;
      (if period_eq_dec lastPeriod (current_period self) then ret tt
       else
         for_each (kpis self) (fun kpi =>
           for_each ["D"; "W"; "M"] (fun agg_kind =>
             on_snd (compute_kpi_values_for_aggregation_kind
                       lastPeriod kpi agg_kind)))) ;;
      let lastPeriod_day := get_truncated_value lastPeriod "D" in
      self <- get_self ;;
      if negb (String.eqb (current_day self) lastPeriod_day) then
        for_each (kpis self) (fun kpi =>
          on_snd (compute_kpi_values_for_aggregation_kind
                    lastPeriod kpi "Y"))
      else ret tt
  end.

End Processor.

Arguments Kpi : clear implicits.
Arguments KpiValueRow : clear implicits.
Arguments Session : clear implicits.
Arguments event : clear implicits.
Arguments Processor : clear implicits.
Arguments get_self {Period RawData}.
Arguments init {Period PO RawData} now.

(** ** A concrete calendar of hourly periods *)

Module Calendar.

(** Modelled from the spec: the [Period] class, missing from the sources; a
    point in time at the resolution of the hourly tick, with its calendar
    fields, truncation to a bucket label and shifting by a relative offset
    with calendar semantics. *)
Record Period : Type :=
  { p_year : Z; p_month : Z; p_day : Z; p_hour : Z }.

Definition eq_dec (p q : Period) : {p = q} + {p <> q}.
Proof. decide equality; apply Z.eq_dec. Defined.

Definition date_of (p : Period) : datetime :=
  {| dt_year := p_year p; dt_month := p_month p; dt_day := p_day p |}.

Definition digit (n : Z) : ascii := ascii_of_nat (48 + Z.to_nat (n mod 10)).

Definition pad2 (n : Z) : string :=
  String (digit (n / 10)) (String (digit n) "").

Definition pad4 (n : Z) : string :=
  String (digit (n / 1000)) (String (digit (n / 100)) (pad2 n)).

Definition day_label (dt : datetime) : string :=
  (pad4 (dt_year dt) ++ "-" ++ pad2 (dt_month dt) ++ "-" ++ pad2 (dt_day dt))%string.

(** Monday-based weeks: a week is labelled by the Monday that opens it. *)
Definition week_label (dt : datetime) : string :=
  ("W" ++ day_label (ord2ymd (toordinal dt - (isoweekday dt - 1))))%string.

Definition truncated (p : Period) (agg_kind : string) : string :=
  if String.eqb agg_kind "D" then day_label (date_of p)
  else if String.eqb agg_kind "W" then week_label (date_of p)
  else if String.eqb agg_kind "M" then (pad4 (p_year p) ++ "-" ++ pad2 (p_month p))%string
  else if String.eqb agg_kind "Y" then pad4 (p_year p)
  else "".

(** Months move first, the day of the month clamped to the length of the
    month reached; days are added afterwards. The hour is kept. *)
Definition shifted (p : Period) (delta : relativedelta) : Period :=
  let months := p_year p * 12 + (p_month p - 1) + rd_months delta in
  let y := months / 12 in
  let m := months mod 12 + 1 in
  let d := Z.min (p_day p) (days_in_month y m) in
  let dt := ord2ymd (ymd2ord y m d + rd_days delta) in
  {| p_year := dt_year dt; p_month := dt_month dt; p_day := dt_day dt;
     p_hour := p_hour p |}.

#[global] Instance ops : PeriodOps Period :=
  {| period_eq_dec := eq_dec;
     year := p_year;
     month := p_month;
     day := p_day;
     weekday := fun p => isoweekday (date_of p);
     get_truncated_value := truncated;
     get_shifted := shifted |}.

(** Chronological order of periods. *)
Definition hours_since_origin (p : Period) : Z :=
  (ymd2ord (p_year p) (p_month p) (p_day p)) * 24 + p_hour p.

Definition earlier (p q : Period) : Prop :=
  hours_since_origin p < hours_since_origin q.

(** [timestamp] on a host whose local time is UTC.  For a naive
    [datetime] CPython also converts the instant 24 hours earlier, to tell
    the two readings of a repeated local time apart, and raises [ValueError]
    when that instant is before year 1: at midnight of 0001-01-01. *)
Definition utc_timestamp (dt : datetime) : result Z :=
  if toordinal dt <=? 1 then Raise ValueError
  else Ok ((toordinal dt - 719163) * 86400).

(** Raw events are the instants of the visits; the KPI below counts the
    visits of a window [start_ts <= t < stop_ts]. *)
Definition visits : Kpi (list Z) :=
  {| unique_id := 1;
     get_value := fun _ start_ts stop_ts raw =>
       Z.of_nat (List.length
         (filter (fun t => (start_ts <=? t) && (t <? stop_ts)) raw)) |}.

Definition at_hour (y m d h : Z) : Period :=
  {| p_year := y; p_month := m; p_day := d; p_hour := h |}.

End Calendar.


(** ** The scan of [compute_kpi_values_for_aggregation_kind] on the rows *)

Section ScanModel.

Context {Period : Type} {RawData : Type}.

Variables (kpi_id : Z) (agg_kind current_agg_value : string).
Variable aggregations_to_keep : option (list string).
Variable v : Z.

Definition stored_values (rows : list KpiValueRow) : list Value :=
  map (fun r => {| agg_value := row_agg_value r; kpi_value := row_kpi_value r |})
      (filter (row_in kpi_id agg_kind) rows).

Definition delete_rows (label : string) (rows : list KpiValueRow)
  : list KpiValueRow :=
  filter (fun r => negb (row_is kpi_id agg_kind label r)) rows.

Definition update_rows (label : string) (rows : list KpiValueRow)
  : list KpiValueRow :=
  map (fun r => if row_is kpi_id agg_kind label r then set_kpi_value v r else r)
      rows.

(** What one iteration of the loop does to the stored rows. *)
Definition scan_step (rows : list KpiValueRow) (value : Value)
  : list KpiValueRow :=
  let rows1 := if to_delete aggregations_to_keep (agg_value value)
               then delete_rows (agg_value value) rows else rows in
  if String.eqb (agg_value value) current_agg_value
  then update_rows (agg_value value) rows1 else rows1.

(** What one iteration of the loop emits. *)
Definition scan_events (start_ts stop_ts : Z) (value : Value)
  : list (event Period) :=
  (if to_delete aggregations_to_keep (agg_value value)
   then [EvDeleteKpiValue kpi_id agg_kind (agg_value value)] else [])
  ++
  (if String.eqb (agg_value value) current_agg_value
   then [EvKpiGetValue kpi_id agg_kind start_ts stop_ts;
         EvUpdateKpiValue kpi_id agg_kind (agg_value value) v]
   else []).

Definition matches_current (value : Value) : bool :=
  String.eqb (agg_value value) current_agg_value.

(** The two phases the scan amounts to on the rows it started from: rows of
    this KPI and granularity whose label is not retained are pruned, the
    rows of the current bucket take the new number. *)
Definition pruned (rows : list KpiValueRow) : list KpiValueRow :=
  filter (fun r => negb (row_in kpi_id agg_kind r
                         && to_delete aggregations_to_keep (row_agg_value r)))
         rows.

Definition refreshed (rows : list KpiValueRow) : list KpiValueRow :=
  update_rows current_agg_value rows.

Definition new_row : KpiValueRow :=
  {| row_kpi_id := kpi_id; row_agg_kind := agg_kind;
     row_agg_value := current_agg_value; row_kpi_value := v |}.

(** The same two phases after only the labels [seen] have been visited:
    rows whose label was visited and is not retained are gone, rows of the
    current bucket are refreshed if the current label was visited. *)
Definition kept_after (seen : list string) (r : KpiValueRow) : bool :=
  negb (row_in kpi_id agg_kind r && to_delete aggregations_to_keep (row_agg_value r)
        && str_in (row_agg_value r) seen).

Definition refresh_after (seen : list string) (r : KpiValueRow) : KpiValueRow :=
  if row_is kpi_id agg_kind current_agg_value r && str_in current_agg_value seen
  then set_kpi_value v r else r.

(** The rows a call that raises nothing leaves behind. *)
Definition rows_after (rows : list KpiValueRow) : list KpiValueRow :=
  refreshed (pruned rows)
  ++ (if existsb matches_current (stored_values rows) then [] else [new_row]).

End ScanModel.

(** Labels stored for a KPI and a granularity. *)
Definition labels_of (kpi_id : Z) (agg_kind : string) (rows : list KpiValueRow)
  : list string :=
  map row_agg_value (filter (row_in kpi_id agg_kind) rows).

(** The identifying part of a row. *)
Definition row_key (r : KpiValueRow) : Z * string * string :=
  (row_kpi_id r, row_agg_kind r, row_agg_value r).

(** ** Observations on traces and sequences of ticks *)

Section Observers.

Context {Period : Type} {PO : PeriodOps Period}.
Variable timestamp : datetime -> result Z.
Context {RawData : Type}.

(** A call of [compute_kpi_values_for_aggregation_kind]: reference period,
    KPI identifier, granularity. *)
Definition call : Type := (Period * Z * string)%type.

Fixpoint calls (tr : list (event Period)) : list call :=
  match tr with
  | [] => []
  | EvCompute now kpi_id agg_kind :: tr' => (now, kpi_id, agg_kind) :: calls tr'
  | _ :: tr' => calls tr'
  end.

Definition is_yearly (c : call) : bool := String.eqb (snd c) "Y".

Definition yearly_calls (tr : list (event Period)) : list call :=
  filter is_yearly (calls tr).

Definition hourly_calls (tr : list (event Period)) : list call :=
  filter (fun c => negb (is_yearly c)) (calls tr).

Definition is_deletion (e : event Period) : bool :=
  match e with EvDeleteKpiValue _ _ _ => true | _ => false end.

Definition is_addition (e : event Period) : bool :=
  match e with EvAddKpiValue _ _ _ _ => true | _ => false end.

Definition deletions (tr : list (event Period)) : list (event Period) :=
  filter is_deletion tr.

Definition additions (tr : list (event Period)) : list (event Period) :=
  filter is_addition tr.

(** The calls of one pass over the KPIs for Daily, Weekly and Monthly, and
    of one pass for Yearly. *)
Definition hourly_jobs (reference : Period) (ks : list (Kpi RawData)) : list call :=
  flat_map (fun k => map (fun a => (reference, unique_id k, a)) ["D"; "W"; "M"]) ks.

Definition yearly_jobs (reference : Period) (ks : list (Kpi RawData)) : list call :=
  map (fun k => (reference, unique_id k, "Y")) ks.

(** The two loops over the KPIs that [process_tick] and [restore_from_db]
    share. *)
Definition hourly_pass (reference : Period) (ks : list (Kpi RawData))
  : Method RawData unit :=
  for_each ks (fun kpi =>
    for_each ["D"; "W"; "M"] (fun agg_kind =>
      on_snd (compute_kpi_values_for_aggregation_kind timestamp
                reference kpi agg_kind))).

Definition yearly_pass (reference : Period) (ks : list (Kpi RawData))
  : Method RawData unit :=
  for_each ks (fun kpi =>
    on_snd (compute_kpi_values_for_aggregation_kind timestamp
              reference kpi "Y")).

(** Whatever happens in a pass, the calls it makes carry its reference
    period, and the granularities of its kind. *)
Definition calls_about (reference : Period) (yearly : bool)
  (tr : list (event Period)) : Prop :=
  Forall (fun c : call => fst (fst c) = reference /\ is_yearly c = yearly) (calls tr).

(** [process_tick] on a period other than the stored one, as the outcome of
    its two passes. *)
Definition tick_outcome (now : Period) (st : Processor Period RawData) (s : Session Period RawData)
  : outcome (event Period) (Processor Period RawData * Session Period RawData) bool :=
  let period_to_compute := current_period st in
  let now_day := get_truncated_value now "D" in
  let o1 := hourly_pass period_to_compute (kpis st)
              (set_current_period now st, s) in
  match res o1 with
  | Raise e => {| res := Raise e; final := final o1; emitted := emitted o1 |}
  | Ok _ =>
      if String.eqb (current_day st) now_day then
        {| res := Ok true; final := final o1; emitted := emitted o1 |}
      else
        let o2 := yearly_pass period_to_compute (kpis st) (final o1) in
        match res o2 with
        | Raise e => {| res := Raise e; final := final o2;
                        emitted := emitted o1 ++ emitted o2 |}
        | Ok _ => {| res := Ok true;
                     final := (set_current_day now_day (fst (final o2)),
                               snd (final o2));
                     emitted := emitted o1 ++ emitted o2 |}
        end
  end.

(** [restore_from_db] as the outcome of the read of the marker and of the
    two passes. *)
Definition restore_outcome (st : Processor Period RawData)
  (s : Session Period RawData)
  : outcome (event Period) (Processor Period RawData * Session Period RawData) unit :=
  match last_current_period s with
  | None => {| res := Ok tt; final := (st, s);
               emitted := [EvGetLastCurrentPeriod] |}
  | Some lastPeriod =>
      let o1 := if period_eq_dec lastPeriod (current_period st)
                then ret tt (st, s)
                else hourly_pass lastPeriod (kpis st) (st, s) in
      match res o1 with
      | Raise e => {| res := Raise e; final := final o1;
                      emitted := EvGetLastCurrentPeriod :: emitted o1 |}
      | Ok _ =>
          if String.eqb (current_day st) (get_truncated_value lastPeriod "D") then
            {| res := Ok tt; final := final o1;
               emitted := EvGetLastCurrentPeriod :: emitted o1 |}
          else
            let o2 := yearly_pass lastPeriod (kpis st) (final o1) in
            {| res := res o2; final := final o2;
               emitted := EvGetLastCurrentPeriod :: emitted o1 ++ emitted o2 |}
      end
  end.

(** All four windows of a period can be resolved. *)
Definition windows_resolve (p : Period) : Prop :=
  forall a, In a ["D"; "W"; "M"; "Y"] ->
            exists ts, get_timestamps timestamp a p = Ok ts.

(** The clock source calls [process_tick] once per period, in order; each
    call starts from the object and session the previous one left. *)
Fixpoint process_ticks (nows : list Period)
  (s : Processor Period RawData * Session Period RawData)
  : list (outcome (event Period)
                  (Processor Period RawData * Session Period RawData) bool) :=
  match nows with
  | [] => []
  | now :: rest =>
      let o := process_tick timestamp now s in
      o :: process_ticks rest (final o)
  end.

End Observers.

(** ** Concrete runs on the calendar of hourly periods *)

Module Scenario.

Import Calendar.

Definition row (id : Z) (kind label : string) (n : Z) : KpiValueRow :=
  {| row_kpi_id := id; row_agg_kind := kind; row_agg_value := label;
     row_kpi_value := n |}.

Definition session_of (rows : list KpiValueRow) (last : option Period)
  (raw : list Z) : Session Period (list Z) :=
  {| kpi_values := rows; last_current_period := last; raw_data := raw |}.

(** A processor created at [now], then given the visits KPI to track. *)
Definition tracking (now : Period) : Processor Period (list Z) :=
  let created : Processor Period (list Z) := init now in
  {| kpis := kpis created ++ [visits];
     current_period := current_period created;
     current_day := current_day created |}.

(** Three visits on 2024-03-15, at 08:00, 09:00 and 13:00 UTC. *)
Definition march_visits : list Z := [1710489600; 1710493200; 1710507600].

(** Two rows left for the same Daily bucket. *)
Definition duplicated_rows : list KpiValueRow :=
  [row 1 "D" "2024-03-15" 1; row 1 "D" "2024-03-15" 2].

(** Daily rows of the visits KPI, one of them older than a week on
    2024-03-15, and a Daily row of another KPI. *)
Definition march_rows : list KpiValueRow :=
  [row 1 "D" "2024-03-01" 7; row 1 "D" "2024-03-14" 7; row 2 "D" "2024-03-01" 7].

Definition march_session : Session Period (list Z) :=
  session_of march_rows None march_visits.

(** The hourly periods of a day: midnight, then 01:00 to 23:00. *)
Definition later_hours (y m d : Z) : list Period :=
  map (fun h => at_hour y m d (Z.of_nat h)) (seq 1 23).

Definition hours_of (y m d : Z) : list Period :=
  at_hour y m d 0 :: later_hours y m d.

End Scenario.

(** ** Dates, rows and traces the properties speak of *)

(** [f] holds on the [k] integers from [z] on. *)
Fixpoint all_from (f : Z -> bool) (k : nat) (z : Z) : bool :=
  match k with
  | O => true
  | S k' => f z && all_from f k' (z + 1)
  end.

(** The day February 29 adds before the months after February. *)
Definition leap_day (leap : bool) (m : Z) : Z :=
  if (2 <? m) && leap then 1 else 0.

(** [_days_in_month] as a function of the leap flag. *)
Definition month_length (leap : bool) (m : Z) : Z :=
  if m =? 2 then (if leap then 29 else 28)
  else if (m =? 4) || (m =? 6) || (m =? 9) || (m =? 11) then 30
  else 31.

(** Month and day of the [n]-th day (from 0) of a year, as [_ord2ymd] finds
    them. *)
Definition month_day (leapyear : bool) (n : Z) : Z * Z :=
  let m := Z.shiftr (n + 50) 5 in
  let preceding := days_before_month_common m + leap_day leapyear m in
  if n <? preceding then
    let m' := m - 1 in
    let preceding' :=
      preceding
      - (nth (Z.to_nat m') [0; 31; 28; 31; 30; 31; 30; 31; 31; 30; 31; 30; 31] 0
         + (if (m' =? 2) && leapyear then 1 else 0)) in
    (m', n - preceding' + 1)
  else (m, n - preceding + 1).

(** The month and day found for day [n] are a date of the year, and count
    back to [n]. *)
Definition month_day_ok (leap : bool) (n : Z) : bool :=
  let md := month_day leap n in
  (1 <=? fst md) && (fst md <=? 12)
  && (1 <=? snd md) && (snd md <=? month_length leap (fst md))
  && (days_before_month_common (fst md) + leap_day leap (fst md) + snd md =? n + 1).

(** [Timestamps(start=int(a.timestamp()), stop=int(b.timestamp()))]: the
    two conversions are made in this order, and the first that raises
    decides the error. *)
Definition window_between (timestamp : datetime -> result Z) (a b : datetime)
  : result Timestamps :=
  do start_ts <- timestamp a;
  do stop_ts <- timestamp b;
  Ok {| start := start_ts; stop := stop_ts |}.

(** A date of the proleptic Gregorian calendar. *)
Definition valid_date (dt : datetime) : Prop :=
  1 <= dt_year dt /\ 1 <= dt_month dt <= 12
  /\ 1 <= dt_day dt <= days_in_month (dt_year dt) (dt_month dt).

Section WindowDefs.

Context {Period : Type} {PO : PeriodOps Period}.

(** The calendar date a period carries in its [year], [month] and [day]
    fields. *)
Definition reference_date (now : Period) : datetime :=
  {| dt_year := year now; dt_month := month now; dt_day := day now |}.

End WindowDefs.

(** A date [datetime] accepts: a date of the calendar up to year 9999. *)
Definition in_range (dt : datetime) : Prop :=
  valid_date dt /\ dt_year dt <= MAXYEAR.

(** The other rows: those of another KPI or another granularity. *)
Definition other_rows (kpi_id : Z) (agg_kind : string)
  (rows : list KpiValueRow) : list KpiValueRow :=
  filter (fun r => negb (row_in kpi_id agg_kind r)) rows.

Section TickDefs.

Context {Period : Type} {RawData : Type}.

(** A row a processor tracking [ks] may write: a row of one of its KPIs
    under one of the four granularities. *)
Definition tracked_row (ks : list (Kpi RawData)) (r : KpiValueRow) : bool :=
  existsb (fun k => unique_id k =? row_kpi_id r) ks
  && str_in (row_agg_kind r) ["D"; "W"; "M"; "Y"].

Definition untracked_rows (ks : list (Kpi RawData)) (rows : list KpiValueRow)
  : list KpiValueRow :=
  filter (fun r => negb (tracked_row ks r)) rows.

(** Two sessions that differ at most in the rows [ks] tracks. *)
Definition same_outside (ks : list (Kpi RawData))
  (s s' : Session Period RawData) : Prop :=
  untracked_rows ks (kpi_values s') = untracked_rows ks (kpi_values s)
  /\ last_current_period s' = last_current_period s
  /\ raw_data s' = raw_data s.

(** The day label of a processor is that of its period. *)
Definition day_in_step {PO : PeriodOps Period} (st : Processor Period RawData) : Prop :=
  current_day st = get_truncated_value (current_period st) "D".

End TickDefs.

Section TraceDefs.

Context {Period : Type}.

(** What an event of a call for [(kpi_id, agg_kind)] may be: a read or a
    write under that pair; a deletion of a stored label that is not
    retained; a write of the number [v] under the current label; a query of
    the KPI on the window. *)
Definition in_scope (kpi_id : Z) (agg_kind current_agg_value : string)
  (aggregations_to_keep : option (list string)) (v : Z)
  (stored : list string) (timestamps : Timestamps) (e : event Period) : Prop :=
  match e with
  | EvCompute _ i k => i = kpi_id /\ k = agg_kind
  | EvGetKpiValues i k => i = kpi_id /\ k = agg_kind
  | EvDeleteKpiValue i k l =>
      i = kpi_id /\ k = agg_kind /\ In l stored
      /\ to_delete aggregations_to_keep l = true
  | EvUpdateKpiValue i k l w =>
      i = kpi_id /\ k = agg_kind /\ l = current_agg_value /\ w = v
  | EvAddKpiValue i k l w =>
      i = kpi_id /\ k = agg_kind /\ l = current_agg_value /\ w = v
      /\ ~ In current_agg_value stored
  | EvKpiGetValue i k t0 t1 =>
      i = kpi_id /\ k = agg_kind /\ t0 = start timestamps /\ t1 = stop timestamps
  | EvGetLastCurrentPeriod => False
  end.

End TraceDefs.

(** ** Further concrete states on the calendar of hourly periods *)

Module Runs.

Import Calendar Scenario.

(** The Daily window of 2024-03-15. *)
Definition march_15_window : Timestamps :=
  {| start := 1710460800; stop := 1710547200 |}.

(** The seven Daily labels retained on 2024-03-15. *)
Definition march_week_labels : list string :=
  ["2024-03-15"; "2024-03-14"; "2024-03-13"; "2024-03-12"; "2024-03-11";
   "2024-03-10"; "2024-03-09"].

(** A session whose persisted marker is 2024-03-15 08:00. *)
Definition marked_session : Session Period (list Z) :=
  session_of march_rows (Some (at_hour 2024 3 15 8)) march_visits.

(** A processor as [__init__] leaves it on 2024-12-31 at 23:00. *)
Definition created_in_december : Processor Period (list Z) :=
  init (at_hour 2024 12 31 23).

(** Two stale Daily rows of the visits KPI under 2024-03-01, a label older
    than a week on 2024-03-15, beside a row of 2024-03-14 and a Daily row of
    another KPI. *)
Definition stale_rows : list KpiValueRow :=
  [row 1 "D" "2024-03-01" 7; row 1 "D" "2024-03-01" 8;
   row 1 "D" "2024-03-14" 7; row 2 "D" "2024-03-01" 7].

Definition stale_session : Session Period (list Z) :=
  session_of stale_rows None march_visits.

(** A second KPI: the visits counted twice. *)
Definition visits_twice : Kpi (list Z) :=
  {| unique_id := 2;
     get_value := fun agg_kind start_ts stop_ts raw =>
       2 * get_value visits agg_kind start_ts stop_ts raw |}.

(** A processor created at [now], then given the two KPIs to track. *)
Definition tracking_two (now : Period) : Processor Period (list Z) :=
  let created := tracking now in
  {| kpis := kpis created ++ [visits_twice];
     current_period := current_period created;
     current_day := current_day created |}.

(** A session whose persisted marker is 2024-12-31 23:00. *)
Definition december_marker_session : Session Period (list Z) :=
  session_of [] (Some (at_hour 2024 12 31 23)) march_visits.

End Runs.

(** * Properties *)

(** ** The calendar arithmetic on known dates *)

Example ordinal_of_known_dates :
  toordinal {| dt_year := 1; dt_month := 1; dt_day := 1 |} = 1
  /\ toordinal {| dt_year := 1970; dt_month := 1; dt_day := 1 |} = 719163
  /\ toordinal {| dt_year := 2024; dt_month := 3; dt_day := 15 |} = 738960
  /\ toordinal {| dt_year := 9999; dt_month := 12; dt_day := 31 |} = MAXORDINAL.
Proof. repeat split; reflexivity. Qed.

Example date_of_known_ordinals :
  ord2ymd 738960 = {| dt_year := 2024; dt_month := 3; dt_day := 15 |}
  /\ ord2ymd 738946 = {| dt_year := 2024; dt_month := 3; dt_day := 1 |}
  /\ ord2ymd 738945 = {| dt_year := 2024; dt_month := 2; dt_day := 29 |}
  /\ ord2ymd 739251 = {| dt_year := 2024; dt_month := 12; dt_day := 31 |}
  /\ ord2ymd 739252 = {| dt_year := 2025; dt_month := 1; dt_day := 1 |}.
Proof. repeat split; reflexivity. Qed.

(** 2024-03-15 is a Friday, and the day after is 2024-03-16. *)
Example friday_2024_03_15 :
  isoweekday {| dt_year := 2024; dt_month := 3; dt_day := 15 |} = 5
  /\ add_days {| dt_year := 2024; dt_month := 3; dt_day := 15 |} 1
     = Ok {| dt_year := 2024; dt_month := 3; dt_day := 16 |}.
Proof. split; reflexivity. Qed.

(** ** Loops in the effect monad *)

Section LoopFacts.

Context {event S : Type}.

Lemma bind_ok {A B} (m : Eff event S A) (f : A -> Eff event S B) s a :
  res (m s) = Ok a ->
  bind m f s =
  {| res := res (f a (final (m s)));
     final := final (f a (final (m s)));
     emitted := emitted (m s) ++ emitted (f a (final (m s))) |}.
Proof. intros H. unfold bind. rewrite H. reflexivity. Qed.

Lemma bind_raise {A B} (m : Eff event S A) (f : A -> Eff event S B) s e :
  res (m s) = Raise e ->
  bind m f s = {| res := Raise e; final := final (m s); emitted := emitted (m s) |}.
Proof. intros H. unfold bind. rewrite H. reflexivity. Qed.

Lemma outcome_eta {A} (o : outcome event S A) :
  {| res := res o; final := final o; emitted := emitted o |} = o.
Proof. destruct o; reflexivity. Qed.

Lemma bind_ret {A B} (a : A) (f : A -> Eff event S B) s :
  bind (ret a) f s = f a s.
Proof. unfold bind. simpl. apply outcome_eta. Qed.

Lemma bind_get_state {B} (f : S -> Eff event S B) s :
  bind get_state f s = f s s.
Proof. unfold bind. simpl. apply outcome_eta. Qed.

Lemma bind_modify_state {B} (g : S -> S) (f : unit -> Eff event S B) s :
  bind (modify_state g) f s = f tt (g s).
Proof. unfold bind. simpl. apply outcome_eta. Qed.

Lemma for_each_cons {X} (x : X) l (f : X -> Eff event S unit) s :
  for_each (x :: l) f s = bind (f x) (fun _ => for_each l f) s.
Proof.
  unfold for_each. simpl. unfold bind.
  destruct (res (f x s)) as [[]|]; reflexivity.
Qed.

(** A property of the state that every iteration keeps is kept by the
    loop, whether or not an iteration raises. *)
Lemma for_each_final_inv {X} (P : S -> Prop) (l : list X)
  (f : X -> Eff event S unit) :
  (forall x s, P s -> P (final (f x s))) ->
  forall s, P s -> P (final (for_each l f s)).
Proof.
  intros Hf. induction l as [|x l IH]; intros s Hs; [exact Hs|].
  rewrite for_each_cons. unfold bind.
  destruct (res (f x s)) eqn:E; simpl.
  - apply IH, Hf, Hs.
  - apply Hf, Hs.
Qed.

(** A property of traces that holds of the empty trace, of every iteration
    and of concatenations holds of the loop. *)
Lemma for_each_emitted_inv {X} (Q : list event -> Prop) (l : list X)
  (f : X -> Eff event S unit) :
  Q [] ->
  (forall t1 t2, Q t1 -> Q t2 -> Q (t1 ++ t2)) ->
  (forall x s, In x l -> Q (emitted (f x s))) ->
  forall s, Q (emitted (for_each l f s)).
Proof.
  intros Hnil Happ. induction l as [|x l IH]; intros Hf s; [exact Hnil|].
  rewrite for_each_cons. unfold bind.
  destruct (res (f x s)) eqn:E; simpl.
  - apply Happ; [apply Hf; left; reflexivity|].
    apply IH. intros y s' Hy. apply Hf. right. exact Hy.
  - apply Hf. left. reflexivity.
Qed.

(** When no iteration raises, the loop returns and what an observer [obs]
    extracts from its trace is what it extracts from each iteration. *)
Lemma for_each_ok {X O} (obs : list event -> list O) (g : X -> list O)
  (l : list X) (f : X -> Eff event S unit) :
  obs [] = [] ->
  (forall t1 t2, obs (t1 ++ t2) = obs t1 ++ obs t2) ->
  (forall x s, In x l -> res (f x s) = Ok tt /\ obs (emitted (f x s)) = g x) ->
  forall s, res (for_each l f s) = Ok tt
            /\ obs (emitted (for_each l f s)) = flat_map g l.
Proof.
  intros Hnil Happ. induction l as [|x l IH]; intros Hf s.
  - simpl. split; [reflexivity | exact Hnil].
  - destruct (Hf x s (or_introl eq_refl)) as [Hr Ho].
    rewrite for_each_cons, (bind_ok _ _ _ Hr). simpl.
    destruct (IH (fun y s' Hy => Hf y s' (or_intror Hy)) (final (f x s)))
      as [Hr' Ho'].
    split; [exact Hr'|]. rewrite Happ, Ho, Ho'. reflexivity.
Qed.

(** When an iteration that returns shows all of [g x] to the observer and
    one that raises shows an initial segment of it, the loop shows an
    initial segment of the whole, and all of it when it returns. *)
Lemma for_each_prefix {X O} (obs : list event -> list O) (g : X -> list O)
  (l : list X) (f : X -> Eff event S unit) :
  obs [] = [] ->
  (forall t1 t2, obs (t1 ++ t2) = obs t1 ++ obs t2) ->
  (forall x s, In x l ->
     prefix (obs (emitted (f x s))) (g x)
     /\ (res (f x s) = Ok tt -> obs (emitted (f x s)) = g x)) ->
  forall s, prefix (obs (emitted (for_each l f s))) (flat_map g l)
            /\ (res (for_each l f s) = Ok tt ->
                obs (emitted (for_each l f s)) = flat_map g l).
Proof.
  intros Hnil Happ. induction l as [|x l IH]; intros Hf s.
  - simpl. rewrite Hnil. split; [exists []|]; reflexivity.
  - destruct (Hf x s (or_introl eq_refl)) as [Hp Ho].
    rewrite for_each_cons. unfold bind.
    destruct (res (f x s)) as [[]|e] eqn:E; cbn [res emitted flat_map].
    + destruct (IH (fun y s' Hy => Hf y s' (or_intror Hy)) (final (f x s)))
        as [Hp' Ho'].
      rewrite Happ, (Ho eq_refl). split.
      * destruct Hp' as [l3 H3]. exists l3. rewrite H3, app_assoc. reflexivity.
      * intros H. rewrite (Ho' H). reflexivity.
    + split; [|discriminate].
      destruct Hp as [l3 H3]. exists (l3 ++ flat_map g l).
      rewrite H3, app_assoc. reflexivity.
Qed.

Lemma on_snd_fst {S1 A} (m : Eff event S A) (s : S1 * S) :
  fst (final (on_snd m s)) = fst s.
Proof. reflexivity. Qed.

Lemma on_snd_res {S1 A} (m : Eff event S A) (s : S1 * S) :
  res (on_snd m s) = res (m (snd s)).
Proof. reflexivity. Qed.

Lemma on_snd_emitted {S1 A} (m : Eff event S A) (s : S1 * S) :
  emitted (on_snd m s) = emitted (m (snd s)).
Proof. reflexivity. Qed.

Lemma map_as_flat_map {A B} (f : A -> B) l :
  map f l = flat_map (fun x => [f x]) l.
Proof. induction l as [|x l IH]; simpl; [|rewrite IH]; reflexivity. Qed.

End LoopFacts.

(** ** The scan on the rows *)

Section ScanFacts.

Variables (id : Z) (a cur : string) (keep : option (list string)) (v : Z).

(** Two filters in a row are one. *)
Lemma filter_twice {A} (p q : A -> bool) l :
  filter p (filter q l) = filter (fun x => q x && p x) l.
Proof.
  induction l as [|x l IH]; simpl; [reflexivity|].
  destruct (q x); simpl; [destruct (p x)|]; rewrite IH; reflexivity.
Qed.

Lemma row_in_set r w : row_in id a (set_kpi_value w r) = row_in id a r.
Proof. reflexivity. Qed.

Lemma scan_step_shape rows x :
  scan_step id a cur keep v rows x =
  map (fun r => if String.eqb (agg_value x) cur && row_is id a (agg_value x) r
                then set_kpi_value v r else r)
      (filter (fun r => negb (to_delete keep (agg_value x)
                              && row_is id a (agg_value x) r)) rows).
Proof.
  unfold scan_step, delete_rows, update_rows.
  destruct (to_delete keep (agg_value x)); destruct (String.eqb (agg_value x) cur);
    simpl; try reflexivity.
  - rewrite map_id. reflexivity.
  - rewrite filter_true. reflexivity.
  - rewrite filter_true, map_id. reflexivity.
Qed.

Lemma row_is_set l r w : row_is id a l (set_kpi_value w r) = row_is id a l r.
Proof. reflexivity. Qed.

Ltac split_tests :=
  repeat match goal with
  | |- context [String.eqb ?x ?y] => destruct (String.eqb_spec x y)
  | |- context [row_in id a ?r] => destruct (row_in id a r) eqn:?
  | |- context [to_delete keep ?l] => destruct (to_delete keep l) eqn:?
  | |- context [str_in ?l ?L] => destruct (str_in l L) eqn:?
  end; cbn [andb orb negb]; try reflexivity; try congruence.

Lemma fold_scan_step vs : forall rows,
  fold_left (scan_step id a cur keep v) vs rows =
  map (refresh_after id a cur v (map agg_value vs))
      (filter (kept_after id a keep (map agg_value vs)) rows).
Proof.
  induction vs as [|x vs IH]; intros rows.
  - simpl. unfold kept_after, refresh_after. simpl.
    rewrite (filter_ext _ (fun _ => true)), filter_true.
    + rewrite (map_ext _ (fun r => r)), map_id; [reflexivity|].
      intros r. rewrite andb_false_r. reflexivity.
    + intros r. rewrite andb_false_r. reflexivity.
  - simpl fold_left. rewrite IH, scan_step_shape.
    rewrite filter_map_swap, map_map, filter_twice. simpl map.
    set (lx := agg_value x). set (L := map agg_value vs).
    rewrite (filter_ext _ (kept_after id a keep (lx :: L))).
    + apply map_ext. intros r. unfold refresh_after.
      destruct (String.eqb lx cur && row_is id a lx r) eqn:E1.
      * rewrite row_is_set. unfold row_is in *. cbn [str_in existsb].
        fold (str_in cur L). revert E1. split_tests.
      * unfold row_is in *. cbn [str_in existsb].
        fold (str_in cur L). revert E1. split_tests.
    + intros r. unfold kept_after.
      destruct (String.eqb lx cur && row_is id a lx r) eqn:E1.
      * unfold row_is in *. cbn [str_in existsb row_agg_value set_kpi_value].
        fold (str_in (row_agg_value r) L). rewrite row_in_set.
        revert E1. split_tests.
      * unfold row_is in *. cbn [str_in existsb].
        fold (str_in (row_agg_value r) L). revert E1. split_tests.
Qed.

Lemma labels_of_stored rows :
  map agg_value (stored_values id a rows) = labels_of id a rows.
Proof. unfold stored_values, labels_of. rewrite map_map. reflexivity. Qed.

Lemma str_in_In x l : str_in x l = true <-> In x l.
Proof.
  unfold str_in. rewrite existsb_exists. split.
  - intros [y [Hy E]]. apply String.eqb_eq in E. subst y. exact Hy.
  - intros H. exists x. split; [exact H | apply String.eqb_refl].
Qed.

Lemma in_labels_of r rows :
  In r rows -> row_in id a r = true -> In (row_agg_value r) (labels_of id a rows).
Proof.
  intros Hr Hin. unfold labels_of. apply in_map. apply filter_In. auto.
Qed.

(** The loop, run on the Values read from the rows it works on, prunes and
    refreshes. *)
Lemma scan_snapshot rows :
  fold_left (scan_step id a cur keep v) (stored_values id a rows) rows =
  refreshed id a cur v (pruned id a keep rows).
Proof.
  rewrite fold_scan_step, labels_of_stored.
  unfold refreshed, update_rows, pruned.
  rewrite (filter_ext_in (kept_after id a keep (labels_of id a rows))
             (fun r => negb (row_in id a r && to_delete keep (row_agg_value r)))).
  - apply map_ext_in. intros r Hr. apply filter_In in Hr. destruct Hr as [Hr _].
    unfold refresh_after. destruct (row_is id a cur r) eqn:E; [|reflexivity].
    unfold row_is in E. apply andb_true_iff in E. destruct E as [Hin El].
    apply String.eqb_eq in El.
    assert (H : str_in cur (labels_of id a rows) = true).
    { apply str_in_In. rewrite <- El. apply in_labels_of; assumption. }
    rewrite H. reflexivity.
  - intros r Hr. unfold kept_after.
    destruct (row_in id a r) eqn:Hin; [|reflexivity].
    assert (H : str_in (row_agg_value r) (labels_of id a rows) = true).
    { apply str_in_In. apply in_labels_of; assumption. }
    rewrite H, andb_true_r. reflexivity.
Qed.

Lemma matched_iff rows :
  existsb (matches_current cur) (stored_values id a rows) = true
  <-> In cur (labels_of id a rows).
Proof.
  rewrite <- labels_of_stored, existsb_exists, in_map_iff.
  unfold matches_current.
  split; intros [x [H1 H2]].
  - exists x. apply String.eqb_eq in H2. auto.
  - exists x. rewrite H1. split; [exact H2 | apply String.eqb_refl].
Qed.

Lemma labels_of_app r1 r2 :
  labels_of id a (r1 ++ r2) = labels_of id a r1 ++ labels_of id a r2.
Proof. unfold labels_of. rewrite filter_app, map_app. reflexivity. Qed.

Lemma labels_of_refreshed rows :
  labels_of id a (refreshed id a cur v rows) = labels_of id a rows.
Proof.
  unfold labels_of, refreshed, update_rows.
  rewrite filter_map_swap, map_map.
  rewrite (filter_ext _ (row_in id a)).
  - apply map_ext. intros r. destruct (row_is id a cur r); reflexivity.
  - intros r. destruct (row_is id a cur r); reflexivity.
Qed.

Lemma labels_of_pruned rows :
  labels_of id a (pruned id a keep rows) =
  filter (fun l => negb (to_delete keep l)) (labels_of id a rows).
Proof.
  unfold labels_of, pruned. rewrite filter_twice, filter_map_swap.
  f_equal. induction rows as [|r rows IH]; simpl; [reflexivity|].
  destruct (row_in id a r); simpl; rewrite IH, ?andb_true_r, ?andb_false_r;
    reflexivity.
Qed.

Lemma row_in_new_row : row_in id a (new_row id a cur v) = true.
Proof. unfold row_in, new_row. simpl. rewrite Z.eqb_refl, String.eqb_refl. reflexivity. Qed.

Lemma labels_of_rows_after rows :
  labels_of id a (rows_after id a cur keep v rows) =
  filter (fun l => negb (to_delete keep l)) (labels_of id a rows)
  ++ (if existsb (matches_current cur) (stored_values id a rows)
      then [] else [cur]).
Proof.
  unfold rows_after. rewrite labels_of_app, labels_of_refreshed, labels_of_pruned.
  f_equal. destruct (existsb _ _); [reflexivity|].
  unfold labels_of. simpl. rewrite row_in_new_row. reflexivity.
Qed.

Lemma rows_after_unique rows :
  NoDup (labels_of id a rows) ->
  NoDup (labels_of id a (rows_after id a cur keep v rows)).
Proof.
  intros H. rewrite labels_of_rows_after.
  apply NoDup_app.
  - apply NoDup_filter, H.
  - destruct (existsb _ _); constructor; [intros [] | constructor].
  - intros l Hl. destruct (existsb _ _) eqn:E; [intros []|].
    intros [<-|[]]. apply filter_In in Hl. destruct Hl as [Hl _].
    apply matched_iff in Hl. congruence.
Qed.

Lemma rows_after_matched rows :
  to_delete keep cur = false ->
  existsb (matches_current cur)
          (stored_values id a (rows_after id a cur keep v rows)) = true.
Proof.
  intros Hcur. apply matched_iff. rewrite labels_of_rows_after.
  apply in_or_app.
  destruct (existsb _ (stored_values id a rows)) eqn:E.
  - left. apply filter_In. split; [apply matched_iff, E | rewrite Hcur; reflexivity].
  - right. left. reflexivity.
Qed.

Lemma rows_after_again rows :
  to_delete keep cur = false ->
  rows_after id a cur keep v (rows_after id a cur keep v rows) =
  rows_after id a cur keep v rows.
Proof.
  intros Hcur.
  assert (Hmatch := rows_after_matched rows Hcur).
  set (R1 := rows_after id a cur keep v rows) in *.
  assert (HL := labels_of_rows_after rows). fold R1 in HL.
  assert (Hprune : pruned id a keep R1 = R1).
  { unfold pruned. rewrite (filter_ext_in _ (fun _ => true)); [apply filter_true|].
    intros r Hr. destruct (row_in id a r) eqn:Hin; [|reflexivity].
    apply (in_labels_of _ _ Hr) in Hin. rewrite HL in Hin.
    apply in_app_or in Hin. destruct Hin as [Hin|Hin].
    - apply filter_In in Hin. destruct Hin as [_ Hin].
      destruct (to_delete keep (row_agg_value r)); [discriminate|reflexivity].
    - destruct (existsb _ (stored_values id a rows)); [destruct Hin|].
      destruct Hin as [<-|[]]. rewrite Hcur. reflexivity. }
  assert (Hrefresh : refreshed id a cur v R1 = R1).
  { unfold refreshed, update_rows.
    rewrite (map_ext_in _ (fun r => r)); [apply map_id|].
    intros r Hr. destruct (row_is id a cur r) eqn:E; [|reflexivity].
    unfold R1, rows_after in Hr. apply in_app_or in Hr. destruct Hr as [Hr|Hr].
    - unfold refreshed, update_rows in Hr. apply in_map_iff in Hr.
      destruct Hr as [r0 [Hr0 _]].
      destruct (row_is id a cur r0) eqn:E0.
      + rewrite <- Hr0. reflexivity.
      + subst r0. congruence.
    - destruct (existsb _ (stored_values id a rows)); [destruct Hr|].
      destruct Hr as [<-|[]]. reflexivity. }
  unfold rows_after at 1. rewrite Hmatch, Hprune, Hrefresh. apply app_nil_r.
Qed.

Lemma rows_after_keep_all rows :
  keep = None ->
  map row_key (rows_after id a cur keep v rows) =
  map row_key rows
  ++ (if existsb (matches_current cur) (stored_values id a rows)
      then [] else [(id, a, cur)]).
Proof.
  intros ->. unfold rows_after, pruned. simpl to_delete.
  rewrite (filter_ext _ (fun _ => true)), filter_true
    by (intros r; rewrite andb_false_r; reflexivity).
  rewrite map_app. f_equal.
  - unfold refreshed, update_rows. rewrite map_map. apply map_ext.
    intros r. destruct (row_is id a cur r); reflexivity.
  - destruct (existsb _ _); reflexivity.
Qed.

End ScanFacts.

(** ** Outcome of one call of [compute_kpi_values_for_aggregation_kind] *)

Section ComputeFacts.

Context {Period : Type} {PO : PeriodOps Period}.
Variable timestamp : datetime -> result Z.
Context {RawData : Type}.

Lemma with_kpi_values_same (s : Session Period RawData) :
  with_kpi_values s (kpi_values s) = s.
Proof. destruct s; reflexivity. Qed.

Lemma scan_value_outcome (kpi : Kpi RawData) a cur keep ts b x
  (s : Session Period RawData) rows :
  scan_value kpi a cur keep ts b x (with_kpi_values s rows) =
  {| res := Ok (matches_current cur x || b);
     final := with_kpi_values s
       (scan_step (unique_id kpi) a cur keep
          (get_value kpi a (start ts) (stop ts) (raw_data s)) rows x);
     emitted := scan_events (unique_id kpi) a cur keep
          (get_value kpi a (start ts) (stop ts) (raw_data s))
          (start ts) (stop ts) x |}.
Proof.
  unfold scan_value, scan_step, scan_events, matches_current.
  destruct (to_delete keep (agg_value x));
    destruct (String.eqb (agg_value x) cur); reflexivity.
Qed.

Lemma scan_outcome (kpi : Kpi RawData) a cur keep ts :
  forall vs b (s : Session Period RawData) rows,
  foldM (scan_value kpi a cur keep ts) vs b (with_kpi_values s rows) =
  {| res := Ok (existsb (matches_current cur) vs || b);
     final := with_kpi_values s
       (fold_left (scan_step (unique_id kpi) a cur keep
                     (get_value kpi a (start ts) (stop ts) (raw_data s)))
                  vs rows);
     emitted := flat_map (scan_events (unique_id kpi) a cur keep
                     (get_value kpi a (start ts) (stop ts) (raw_data s))
                     (start ts) (stop ts)) vs |}.
Proof.
  induction vs as [|x vs IH]; intros b s rows.
  - reflexivity.
  - simpl foldM.
    rewrite (bind_ok _ _ _ (a := matches_current cur x || b))
      by (rewrite scan_value_outcome; reflexivity).
    rewrite scan_value_outcome. simpl final. simpl emitted.
    rewrite IH. simpl. do 2 f_equal.
    destruct (matches_current cur x), (existsb (matches_current cur) vs), b;
      reflexivity.
Qed.

Lemma compute_outcome now (kpi : Kpi RawData) a (s : Session Period RawData) keep ts :
  get_aggregations_to_keep a now = Ok keep ->
  get_timestamps timestamp a now = Ok ts ->
  let id := unique_id kpi in
  let cur := get_truncated_value now a in
  let v := get_value kpi a (start ts) (stop ts) (raw_data s) in
  let vs := stored_values id a (kpi_values s) in
  compute_kpi_values_for_aggregation_kind timestamp now kpi a s =
  {| res := Ok tt;
     final := with_kpi_values s
                (fold_left (scan_step id a cur keep v) vs (kpi_values s)
                 ++ (if existsb (matches_current cur) vs then []
                     else [new_row id a cur v]));
     emitted :=
       EvCompute now id a :: EvGetKpiValues id a ::
       flat_map (scan_events id a cur keep v (start ts) (stop ts)) vs
       ++ (if existsb (matches_current cur) vs then []
           else [EvKpiGetValue id a (start ts) (stop ts);
                 EvAddKpiValue id a cur v]) |}.
Proof.
  intros Hk Ht id cur v vs.
  assert (Hs := scan_outcome kpi a cur keep ts vs false s (kpi_values s)).
  rewrite with_kpi_values_same in Hs.
  unfold compute_kpi_values_for_aggregation_kind.
  unfold bind at 1. simpl.
  unfold bind at 1. simpl.
  rewrite Hk, Ht.
  unfold bind at 1. simpl. unfold bind at 1. simpl.
  unfold bind.
  change (foldM _ _ false s) with
    (foldM (scan_value kpi a cur keep ts) vs false s).
  rewrite Hs. simpl. rewrite orb_false_r.
  fold id v.
  destruct (existsb (matches_current cur) vs); simpl.
  - rewrite !app_nil_r. reflexivity.
  - reflexivity.
Qed.

Lemma compute_raises now (kpi : Kpi RawData) a (s : Session Period RawData) e :
  (get_aggregations_to_keep a now = Raise e
   \/ (exists keep, get_aggregations_to_keep a now = Ok keep)
      /\ get_timestamps timestamp a now = Raise e) ->
  compute_kpi_values_for_aggregation_kind timestamp now kpi a s =
  {| res := Raise e; final := s;
     emitted := [EvCompute now (unique_id kpi) a;
                 EvGetKpiValues (unique_id kpi) a] |}.
Proof.
  intros [Hk | [[keep Hk] Ht]];
    unfold compute_kpi_values_for_aggregation_kind;
    unfold bind at 1; simpl; unfold bind at 1; simpl;
    rewrite Hk; try rewrite Ht; reflexivity.
Qed.

(** A call that raises nothing leaves the pruned and refreshed rows, plus
    a new row when no Value read at the start carried the current label. *)
Lemma compute_completes now (kpi : Kpi RawData) a (s : Session Period RawData)
  keep ts :
  get_aggregations_to_keep a now = Ok keep ->
  get_timestamps timestamp a now = Ok ts ->
  let id := unique_id kpi in
  let cur := get_truncated_value now a in
  let v := get_value kpi a (start ts) (stop ts) (raw_data s) in
  let vs := stored_values id a (kpi_values s) in
  compute_kpi_values_for_aggregation_kind timestamp now kpi a s =
  {| res := Ok tt;
     final := with_kpi_values s (rows_after id a cur keep v (kpi_values s));
     emitted :=
       EvCompute now id a :: EvGetKpiValues id a ::
       flat_map (scan_events id a cur keep v (start ts) (stop ts)) vs
       ++ (if existsb (matches_current cur) vs then []
           else [EvKpiGetValue id a (start ts) (stop ts);
                 EvAddKpiValue id a cur v]) |}.
Proof.
  intros Hk Ht id cur v vs.
  erewrite compute_outcome by eassumption.
  fold id cur v vs. unfold rows_after, vs. rewrite scan_snapshot. reflexivity.
Qed.

Lemma window_implies_retention a (now : Period) ts :
  get_timestamps timestamp a now = Ok ts ->
  exists keep, get_aggregations_to_keep a now = Ok keep.
Proof.
  unfold get_timestamps, get_aggregations_to_keep.
  destruct (String.eqb a "D"); [eauto|].
  destruct (String.eqb a "W"); [eauto|].
  destruct (String.eqb a "M"); [eauto|].
  destruct (String.eqb a "Y"); [eauto|].
  discriminate.
Qed.

(** The loop never emits an addition, and deletes only labels that are not
    retained. *)
Lemma scan_events_additions id a cur keep v t0 t1 (vs : list Value) :
  additions (flat_map (@scan_events Period id a cur keep v t0 t1) vs) = [].
Proof.
  induction vs as [|x vs IH]; [reflexivity|].
  simpl. unfold additions in *. rewrite filter_app, IH.
  unfold scan_events.
  destruct (to_delete keep (agg_value x)); destruct (String.eqb (agg_value x) cur);
    reflexivity.
Qed.

Lemma scan_events_deletions id a cur v t0 t1 (vs : list Value) :
  deletions (flat_map (@scan_events Period id a cur None v t0 t1) vs) = [].
Proof.
  induction vs as [|x vs IH]; [reflexivity|].
  simpl. unfold deletions in *. rewrite filter_app, IH.
  unfold scan_events. simpl.
  destruct (String.eqb (agg_value x) cur); reflexivity.
Qed.

End ComputeFacts.

(** ** Resolvers *)

Lemma days_in_month_bounds y m : 28 <= days_in_month y m <= 31.
Proof.
  unfold days_in_month. destruct (m =? 2); [destruct (is_leap y); lia|].
  destruct (_ || _); lia.
Qed.

Lemma new_first_of_month y m :
  1 <= y <= 9999 -> 1 <= m <= 12 ->
  PyDatetime.new y m 1 = Ok {| dt_year := y; dt_month := m; dt_day := 1 |}.
Proof.
  intros Hy Hm. pose proof (days_in_month_bounds y m).
  unfold PyDatetime.new, fits_int, MINYEAR, MAXYEAR.
  rewrite !(proj2 (Z.leb_le _ _)) by lia. reflexivity.
Qed.

Section ResolverClaims.

Context {Period : Type} {PO : PeriodOps Period}.
Variable timestamp : datetime -> result Z.
Context {RawData : Type}.

(** Claim C8: for a granularity other than "D", "W", "M" and "Y", the window
    resolver and the retention resolver both raise (the error the
    specification calls InvalidGranularity is Python's AttributeError here)
    and return nothing. *)
Theorem unsupported_granularity_raises (agg_kind : string) (now : Period) :
  agg_kind <> "D" -> agg_kind <> "W" -> agg_kind <> "M" -> agg_kind <> "Y" ->
  get_timestamps timestamp agg_kind now = Raise AttributeError
  /\ get_aggregations_to_keep agg_kind now = Raise AttributeError.
Proof.
  intros HD HW HM HY.
  apply String.eqb_neq in HD, HW, HM, HY.
  unfold get_timestamps, get_aggregations_to_keep.
  rewrite HD, HW, HM, HY. split; reflexivity.
Qed.

(** The Monthly window of a period outside December: from the first of the
    month to the first of the next month. *)
Lemma monthly_window_before_december (now : Period) :
  1 <= year now <= 9999 -> 1 <= month now <= 11 ->
  get_timestamps timestamp "M" now =
  window_between timestamp
    {| dt_year := year now; dt_month := month now; dt_day := 1 |}
    {| dt_year := year now; dt_month := month now + 1; dt_day := 1 |}.
Proof.
  intros Hy Hm. unfold get_timestamps. simpl.
  rewrite !new_first_of_month by lia. reflexivity.
Qed.

(** In December the constructor is handed month 13. *)
Lemma monthly_window_in_december (now : Period) :
  month now = 12 ->
  get_timestamps timestamp "M" now
  = Raise (if fits_int (year now) then ValueError else OverflowError).
Proof.
  intros Hm. unfold get_timestamps. simpl. rewrite Hm.
  unfold PyDatetime.new at 2. unfold PyDatetime.new.
  destruct (fits_int (year now)); [|reflexivity].
  cbn [andb fits_int].
  change (13 <=? 12) with false. rewrite !andb_false_r. cbn [andb].
  match goal with
  | |- context [if ?c then Ok _ else _] => destruct c
  end; reflexivity.
Qed.

End ResolverClaims.

Section ComputeClaims.

Context {Period : Type} {PO : PeriodOps Period}.
Variable timestamp : datetime -> result Z.
Context {RawData : Type}.

Lemma additions_cons_other (e : event Period) tr :
  is_addition e = false -> additions (e :: tr) = additions tr.
Proof. intros H. unfold additions. simpl. rewrite H. reflexivity. Qed.

Lemma additions_app (t1 t2 : list (event Period)) :
  additions (t1 ++ t2) = additions t1 ++ additions t2.
Proof. apply filter_app. Qed.

Lemma deletions_cons_other (e : event Period) tr :
  is_deletion e = false -> deletions (e :: tr) = deletions tr.
Proof. intros H. unfold deletions. simpl. rewrite H. reflexivity. Qed.

Lemma deletions_app (t1 t2 : list (event Period)) :
  deletions (t1 ++ t2) = deletions t1 ++ deletions t2.
Proof. apply filter_app. Qed.

Lemma matched_str_in id a cur rows :
  existsb (matches_current cur) (stored_values id a rows) =
  str_in cur (labels_of id a rows).
Proof.
  destruct (str_in cur (labels_of id a rows)) eqn:E.
  - apply matched_iff, str_in_In, E.
  - destruct (existsb _ _) eqn:E'; [|reflexivity].
    apply matched_iff, str_in_In in E'. congruence.
Qed.

Lemma additions_of_call now (kpi : Kpi RawData) a (s : Session Period RawData) ts :
  get_timestamps timestamp a now = Ok ts ->
  additions (emitted (compute_kpi_values_for_aggregation_kind timestamp now kpi a s)) =
  if str_in (get_truncated_value now a)
            (labels_of (unique_id kpi) a (kpi_values s))
  then []
  else [EvAddKpiValue (unique_id kpi) a (get_truncated_value now a)
          (get_value kpi a (start ts) (stop ts) (raw_data s))].
Proof.
  intros Ht. destruct (window_implies_retention _ _ _ Ht) as [keep Hk].
  erewrite compute_completes by eassumption. simpl emitted.
  rewrite !additions_cons_other by reflexivity.
  rewrite additions_app, scan_events_additions, matched_str_in.
  destruct (str_in _ _); reflexivity.
Qed.

Lemma rows_after_current_value id a cur keep v (rows : list KpiValueRow) r :
  In r (rows_after id a cur keep v rows) ->
  row_is id a cur r = true -> row_kpi_value r = v.
Proof.
  intros Hr Hrow. unfold rows_after in Hr. apply in_app_or in Hr.
  destruct Hr as [Hr|Hr].
  - unfold refreshed, update_rows in Hr. apply in_map_iff in Hr.
    destruct Hr as [r0 [Hr0 _]].
    destruct (row_is id a cur r0) eqn:E0.
    + rewrite <- Hr0. reflexivity.
    + subst r0. congruence.
  - destruct (existsb _ _); [destruct Hr|].
    destruct Hr as [<-|[]]. reflexivity.
Qed.

Lemma retained_then_current_unique (retained : string -> bool) cur
  (stored : list string) :
  NoDup (filter retained stored
         ++ (if str_in cur stored then [] else [cur]))
  <-> NoDup (filter retained stored).
Proof.
  split.
  - apply NoDup_app_remove_r.
  - intros H. apply NoDup_app; [exact H | |].
    + destruct (str_in cur stored); constructor; [intros []|constructor].
    + intros l Hl. destruct (str_in cur stored) eqn:E; [intros []|].
      intros [<-|[]]. apply filter_In in Hl. destruct Hl as [Hl _].
      apply str_in_In in Hl. congruence.
Qed.

(** Claim C1, amended: when the window of the reference period resolves,
    one call returns and leaves the rows it found, without those of the KPI
    and granularity whose label is outside the retention list and with the
    new number in those under the current label, followed by a new row for
    the current label if that label was not stored.  So the labels stored
    for the KPI and granularity after the call are the retained labels
    stored before it, each as many times as before and in the same order,
    then the current label if it was absent: stale duplicates under a label
    outside the retention list are deleted, and Values that share a retained
    label are neither merged nor removed.  At most one Value per label is
    left exactly when the retained labels stored before the call were
    pairwise distinct.  Every Value left under the current label holds the
    number the KPI computes on the window, and a Value is created for the
    current label exactly when no stored Value carried that label. *)
Theorem compute_keeps_labels_unique (now : Period) (kpi : Kpi RawData)
  (agg_kind : string) (s : Session Period RawData) (ts : Timestamps) :
  get_timestamps timestamp agg_kind now = Ok ts ->
  let o := compute_kpi_values_for_aggregation_kind timestamp now kpi agg_kind s in
  let current_agg_value := get_truncated_value now agg_kind in
  let kpi_value := get_value kpi agg_kind (start ts) (stop ts) (raw_data s) in
  let stored := labels_of (unique_id kpi) agg_kind (kpi_values s) in
  let remaining := labels_of (unique_id kpi) agg_kind (kpi_values (final o)) in
  exists aggregations_to_keep,
    get_aggregations_to_keep agg_kind now = Ok aggregations_to_keep
    /\ res o = Ok tt
    /\ kpi_values (final o)
       = map (fun r => if row_is (unique_id kpi) agg_kind current_agg_value r
                       then set_kpi_value kpi_value r else r)
             (filter (fun r => negb (row_in (unique_id kpi) agg_kind r
                                     && to_delete aggregations_to_keep
                                          (row_agg_value r)))
                     (kpi_values s))
         ++ (if str_in current_agg_value stored then []
             else [{| row_kpi_id := unique_id kpi; row_agg_kind := agg_kind;
                      row_agg_value := current_agg_value;
                      row_kpi_value := kpi_value |}])
    /\ remaining = filter (fun l => negb (to_delete aggregations_to_keep l)) stored
              ++ (if str_in current_agg_value stored then []
                  else [current_agg_value])
    /\ (NoDup remaining
        <-> NoDup (filter (fun l => negb (to_delete aggregations_to_keep l))
                          stored))
    /\ (forall r, In r (kpi_values (final o)) ->
          row_is (unique_id kpi) agg_kind current_agg_value r = true ->
          row_kpi_value r = kpi_value)
    /\ additions (emitted o) =
       if str_in current_agg_value stored then []
       else [EvAddKpiValue (unique_id kpi) agg_kind current_agg_value kpi_value].
Proof.
  intros Ht o cur v stored remaining.
  destruct (window_implies_retention _ _ _ Ht) as [keep Hk].
  exists keep. split; [exact Hk|].
  assert (Hleft : remaining = filter (fun l => negb (to_delete keep l)) stored
                         ++ (if str_in cur stored then [] else [cur])).
  { unfold remaining, o. erewrite compute_completes by eassumption.
    cbn [final]. unfold with_kpi_values. cbn [kpi_values].
    rewrite labels_of_rows_after, matched_str_in. reflexivity. }
  split; [|split; [|split; [exact Hleft|split; [|split]]]].
  - unfold o. erewrite compute_completes by eassumption. reflexivity.
  - unfold o. erewrite compute_completes by eassumption.
    cbn [final]. unfold with_kpi_values. cbn [kpi_values].
    unfold rows_after. rewrite matched_str_in. reflexivity.
  - rewrite Hleft. apply retained_then_current_unique.
  - unfold o. erewrite compute_completes by eassumption.
    cbn [final]. unfold with_kpi_values. cbn [kpi_values].
    intros r. apply rows_after_current_value.
  - apply additions_of_call, Ht.
Qed.

(** Claim C3: the retention resolver returns the 7 day labels of the
    reference shifted back 0..6 days for Daily, the 4 week labels of shifts
    back 0..3 weeks for Weekly, the 12 month labels of shifts back 0..11
    months for Monthly, and the keep-all value [None] for Yearly; a Yearly
    call deletes nothing and every stored key is still stored after it. *)
Theorem retention_labels (now : Period) :
  get_aggregations_to_keep "D" now =
    Ok (Some (map (fun d => get_truncated_value
                              (get_shifted now (relativedelta_days (- d))) "D")
                  [0; 1; 2; 3; 4; 5; 6]))
  /\ get_aggregations_to_keep "W" now =
    Ok (Some (map (fun w => get_truncated_value
                              (get_shifted now (relativedelta_weeks (- w))) "W")
                  [0; 1; 2; 3]))
  /\ get_aggregations_to_keep "M" now =
    Ok (Some (map (fun m => get_truncated_value
                              (get_shifted now (relativedelta_months (- m))) "M")
                  [0; 1; 2; 3; 4; 5; 6; 7; 8; 9; 10; 11]))
  /\ get_aggregations_to_keep "Y" now = Ok None
  /\ forall (kpi : Kpi RawData) (s : Session Period RawData),
       let o := compute_kpi_values_for_aggregation_kind timestamp now kpi "Y" s in
       deletions (emitted o) = []
       /\ incl (map row_key (kpi_values s)) (map row_key (kpi_values (final o))).
Proof.
  repeat split; try reflexivity.
  - destruct (get_timestamps timestamp "Y" now) as [ts|e] eqn:Ht.
    + erewrite compute_completes by (try eassumption; reflexivity).
      simpl emitted. rewrite !deletions_cons_other by reflexivity.
      rewrite deletions_app, scan_events_deletions.
      destruct (existsb _ _); reflexivity.
    + erewrite compute_raises; [reflexivity|].
      right. split; [eexists; reflexivity | exact Ht].
  - destruct (get_timestamps timestamp "Y" now) as [ts|e] eqn:Ht.
    + erewrite compute_completes by (try eassumption; reflexivity).
      simpl. rewrite rows_after_keep_all by reflexivity.
      apply incl_appl, incl_refl.
    + erewrite compute_raises; [apply incl_refl|].
      right. split; [eexists; reflexivity | exact Ht].
Qed.

(** Claim C7: when shifting the reference period by nothing keeps its
    bucket label, a second call with the same reference period on the
    session the first call left (same raw events) changes nothing: the
    stored rows are those of a single call, no Value is added, and the call
    ends as the first did. *)
Theorem compute_twice (now : Period) (kpi : Kpi RawData) (agg_kind : string)
  (s : Session Period RawData) :
  get_truncated_value (get_shifted now {| rd_months := 0; rd_days := 0 |}) agg_kind
  = get_truncated_value now agg_kind ->
  let o1 := compute_kpi_values_for_aggregation_kind timestamp now kpi agg_kind s in
  let o2 := compute_kpi_values_for_aggregation_kind timestamp now kpi agg_kind
              (final o1) in
  final o2 = final o1
  /\ res o2 = res o1
  /\ additions (emitted o2) = [].
Proof.
  intros Hzero o1 o2.
  destruct (get_aggregations_to_keep agg_kind now) as [keep|e] eqn:Hk.
  2:{ assert (Hr := fun s' => @compute_raises _ _ timestamp _ now kpi agg_kind s' e
                       (or_introl Hk)).
      unfold o2, o1. rewrite !Hr. repeat split; reflexivity. }
  destruct (get_timestamps timestamp agg_kind now) as [ts|e] eqn:Ht.
  2:{ assert (Hr := fun s' => @compute_raises _ _ timestamp _ now kpi agg_kind s' e
                       (or_intror (conj (ex_intro _ keep Hk) Ht))).
      unfold o2, o1. rewrite !Hr. repeat split; reflexivity. }
  assert (Hcur : to_delete keep (get_truncated_value now agg_kind) = false).
  { revert Hk. unfold get_aggregations_to_keep.
    destruct (String.eqb_spec agg_kind "D") as [->|_];
      [|destruct (String.eqb_spec agg_kind "W") as [->|_];
        [|destruct (String.eqb_spec agg_kind "M") as [->|_];
          [|destruct (String.eqb agg_kind "Y")]]];
      intros H; inversion H; subst keep; clear H; try reflexivity;
      simpl; (change (7 * - 0) with 0 || idtac);
      unfold relativedelta_days, relativedelta_weeks, relativedelta_months;
      simpl; rewrite Hzero, String.eqb_refl; reflexivity. }
  assert (H1 := @compute_completes _ _ timestamp _ now kpi agg_kind s _ _ Hk Ht).
  cbv zeta in H1. fold o1 in H1.
  assert (H2 := @compute_completes _ _ timestamp _ now kpi agg_kind (final o1) _ _ Hk Ht).
  cbv zeta in H2. fold o2 in H2.
  assert (Hf : final o1 = with_kpi_values s
            (rows_after (unique_id kpi) agg_kind (get_truncated_value now agg_kind)
               keep (get_value kpi agg_kind (start ts) (stop ts) (raw_data s))
               (kpi_values s))) by (rewrite H1; reflexivity).
  rewrite Hf in H2. simpl kpi_values in H2. simpl raw_data in H2.
  rewrite rows_after_again in H2 by exact Hcur.
  split; [rewrite H2, Hf; reflexivity|].
  split; [rewrite H2, H1; reflexivity|].
  rewrite H2. simpl emitted.
  rewrite !additions_cons_other by reflexivity.
  rewrite additions_app, scan_events_additions.
  rewrite rows_after_matched by exact Hcur. reflexivity.
Qed.

End ComputeClaims.

(** ** Ticks and restart *)

Section TickFacts.

Context {Period : Type} {PO : PeriodOps Period}.
Variable timestamp : datetime -> result Z.
Context {RawData : Type}.

Lemma calls_app (t1 t2 : list (event Period)) :
  calls (t1 ++ t2) = calls t1 ++ calls t2.
Proof.
  induction t1 as [|e t1 IH]; [reflexivity|].
  destruct e; simpl; rewrite IH; reflexivity.
Qed.

Lemma calls_scan_events id a cur keep v t0 t1 (vs : list Value) :
  calls (flat_map (@scan_events Period id a cur keep v t0 t1) vs) = [].
Proof.
  induction vs as [|x vs IH]; [reflexivity|].
  simpl. rewrite calls_app, IH. unfold scan_events.
  destruct (to_delete keep (agg_value x)); destruct (String.eqb (agg_value x) cur);
    reflexivity.
Qed.

(** A call records itself once, whatever comes of it. *)
Lemma calls_of_compute now (kpi : Kpi RawData) a (s : Session Period RawData) :
  calls (emitted (compute_kpi_values_for_aggregation_kind timestamp now kpi a s))
  = [(now, unique_id kpi, a)].
Proof.
  destruct (get_aggregations_to_keep a now) as [keep|e] eqn:Hk.
  - destruct (get_timestamps timestamp a now) as [ts|e] eqn:Ht.
    + erewrite compute_completes by eassumption. simpl.
      rewrite calls_app, calls_scan_events.
      destruct (existsb _ _); reflexivity.
    + erewrite compute_raises; [reflexivity|]. right. eauto.
  - erewrite compute_raises; [reflexivity|]. left. exact Hk.
Qed.

Lemma compute_returns now (kpi : Kpi RawData) a (s : Session Period RawData) ts :
  get_timestamps timestamp a now = Ok ts ->
  res (compute_kpi_values_for_aggregation_kind timestamp now kpi a s) = Ok tt.
Proof.
  intros Ht. destruct (window_implies_retention _ _ _ Ht) as [keep Hk].
  erewrite compute_completes by eassumption. reflexivity.
Qed.

Lemma hourly_pass_self reference ks (x : Processor Period RawData * Session Period RawData) :
  fst (final (hourly_pass timestamp reference ks x)) = fst x.
Proof.
  unfold hourly_pass.
  apply (for_each_final_inv (fun y => fst y = fst x)); [|reflexivity].
  intros k y Hy.
  apply (for_each_final_inv (fun y => fst y = fst x)); [|exact Hy].
  intros a z Hz. exact Hz.
Qed.

Lemma yearly_pass_self reference ks (x : Processor Period RawData * Session Period RawData) :
  fst (final (yearly_pass timestamp reference ks x)) = fst x.
Proof.
  unfold yearly_pass.
  apply (for_each_final_inv (fun y => fst y = fst x)); [|reflexivity].
  intros k y Hy. exact Hy.
Qed.

Lemma hourly_pass_returns reference ks (x : Processor Period RawData * Session Period RawData) :
  windows_resolve timestamp reference ->
  res (hourly_pass timestamp reference ks x) = Ok tt
  /\ calls (emitted (hourly_pass timestamp reference ks x)) = hourly_jobs reference ks.
Proof.
  intros Hw. unfold hourly_pass, hourly_jobs.
  apply for_each_ok; [reflexivity | apply calls_app |].
  intros k y _.
  pose proof (for_each_ok (S := Processor Period RawData * Session Period RawData)
                (@calls Period)
                (fun a => [(reference, unique_id k, a)]) ["D"; "W"; "M"]
                (fun agg_kind => on_snd (compute_kpi_values_for_aggregation_kind
                                           timestamp reference k agg_kind))
                eq_refl calls_app) as H.
  simpl flat_map in H. apply H.
  intros a z Ha. rewrite on_snd_res, on_snd_emitted. split.
  - destruct (Hw a) as [ts Hts]; [simpl in *; tauto|].
    eapply compute_returns, Hts.
  - apply calls_of_compute.
Qed.

Lemma yearly_pass_returns reference ks (x : Processor Period RawData * Session Period RawData) :
  windows_resolve timestamp reference ->
  res (yearly_pass timestamp reference ks x) = Ok tt
  /\ calls (emitted (yearly_pass timestamp reference ks x)) = yearly_jobs reference ks.
Proof.
  intros Hw. unfold yearly_pass, yearly_jobs.
  rewrite map_as_flat_map.
  apply for_each_ok; [reflexivity | apply calls_app |].
  intros k y _. rewrite on_snd_res, on_snd_emitted. split.
  - destruct (Hw "Y") as [ts Hts]; [simpl; tauto|].
    eapply compute_returns, Hts.
  - apply calls_of_compute.
Qed.

Lemma calls_about_app (reference : Period) yearly t1 t2 :
  calls_about reference yearly t1 -> calls_about reference yearly t2 ->
  calls_about reference yearly (t1 ++ t2).
Proof.
  unfold calls_about. rewrite calls_app. intros H1 H2.
  apply Forall_app. split; assumption.
Qed.

Lemma hourly_pass_calls reference ks (x : Processor Period RawData * Session Period RawData) :
  calls_about reference false (emitted (hourly_pass timestamp reference ks x)).
Proof.
  unfold hourly_pass.
  apply for_each_emitted_inv;
    [constructor | apply calls_about_app |].
  intros k y _.
  apply for_each_emitted_inv;
    [constructor | apply calls_about_app |].
  intros a z Ha. unfold calls_about. rewrite on_snd_emitted, calls_of_compute.
  constructor; [|constructor]. split; [reflexivity|].
  simpl in Ha. destruct Ha as [<-|[<-|[<-|[]]]]; reflexivity.
Qed.

Lemma yearly_pass_calls reference ks (x : Processor Period RawData * Session Period RawData) :
  calls_about reference true (emitted (yearly_pass timestamp reference ks x)).
Proof.
  unfold yearly_pass.
  apply for_each_emitted_inv;
    [constructor | apply calls_about_app |].
  intros k y _. unfold calls_about. rewrite on_snd_emitted, calls_of_compute.
  constructor; [|constructor]. split; reflexivity.
Qed.


Lemma bind_get_self {B} (f : Processor Period RawData -> Method RawData B) x :
  bind get_self f x = f (fst x) x.
Proof.
  unfold get_self, bind, get_state, ret. cbn [res final emitted app fst].
  apply outcome_eta.
Qed.

Lemma bind_set_self {B} g (f : unit -> Method RawData B) x :
  bind (@set_self Period RawData g) f x = f tt (g (fst x), snd x).
Proof. unfold set_self. rewrite bind_modify_state. reflexivity. Qed.

Lemma process_tick_outcome now (st : Processor Period RawData) (s : Session Period RawData) :
  current_period st <> now ->
  process_tick timestamp now (st, s) = tick_outcome timestamp now st s.
Proof.
  intros Hne.
  unfold process_tick, tick_outcome.
  change (for_each (kpis ?st) (fun kpi => for_each ["D"; "W"; "M"] (fun agg_kind =>
        on_snd (compute_kpi_values_for_aggregation_kind timestamp ?p kpi agg_kind))))
    with (hourly_pass timestamp p (kpis st)).
  change (for_each (kpis ?st) (fun kpi => 
        on_snd (compute_kpi_values_for_aggregation_kind timestamp ?p kpi "Y")))
    with (yearly_pass timestamp p (kpis st)).
  rewrite bind_get_self. cbn [fst].
  destruct (period_eq_dec (current_period st) now) as [E|_]; [contradiction|].
  rewrite bind_set_self. cbn [fst snd].
  set (x1 := (set_current_period now st, s)).
  assert (Hself := hourly_pass_self (current_period st) (kpis st) x1).
  set (o1 := hourly_pass timestamp (current_period st) (kpis st) x1) in *.
  destruct (res o1) as [[]|e] eqn:E1.
  2:{ rewrite (bind_raise _ _ _ E1). reflexivity. }
  rewrite (bind_ok _ _ _ E1). cbn [res final emitted].
  rewrite bind_get_self. fold o1. rewrite Hself. cbn [fst x1 current_day set_current_period kpis].
  destruct (String.eqb (current_day st) (get_truncated_value now "D")) eqn:Ed;
    cbn [negb].
  - rewrite !bind_ret. cbn [res final emitted]. rewrite app_nil_r.
    reflexivity.
  - set (o2 := yearly_pass timestamp (current_period st) (kpis st) (final o1)).
    destruct (res o2) as [[]|e] eqn:E2.
    + unfold bind. fold o2. rewrite E2. cbn. rewrite !app_nil_r. reflexivity.
    + unfold bind. fold o2. rewrite E2. cbn. reflexivity.
Qed.
End TickFacts.

Section TickOutcomes.

Context {Period : Type} {PO : PeriodOps Period}.
Variable timestamp : datetime -> result Z.
Context {RawData : Type}.

Lemma restore_from_db_outcome (st : Processor Period RawData) (s : Session Period RawData) :
  restore_from_db timestamp (st, s) = restore_outcome timestamp st s.
Proof.
  unfold restore_from_db, restore_outcome.
  change (for_each (kpis ?st) (fun kpi => for_each ["D"; "W"; "M"] (fun agg_kind =>
        on_snd (compute_kpi_values_for_aggregation_kind timestamp ?p kpi agg_kind))))
    with (hourly_pass timestamp p (kpis st)).
  change (for_each (kpis ?st) (fun kpi =>
        on_snd (compute_kpi_values_for_aggregation_kind timestamp ?p kpi "Y")))
    with (yearly_pass timestamp p (kpis st)).
  unfold bind at 1.
  cbn [on_snd Persister_get_last_current_period bind emit get_state ret
       res final emitted fst snd app].
  destruct (last_current_period s) as [lp|]; [|reflexivity].
  rewrite bind_get_self. cbn [fst].
  set (m := if period_eq_dec lp (current_period st) then ret tt
            else hourly_pass timestamp lp (kpis st)).
  assert (Hself : fst (final (m (st, s))) = st).
  { unfold m. destruct (period_eq_dec lp (current_period st)); [reflexivity|].
    apply hourly_pass_self. }
  replace ((if period_eq_dec lp (current_period st)
            then ret tt (st, s)
            else hourly_pass timestamp lp (kpis st) (st, s))) with (m (st, s))
    by (unfold m; destruct (period_eq_dec lp (current_period st)); reflexivity).
  destruct (res (m (st, s))) as [[]|e] eqn:E1.
  2:{ rewrite (bind_raise _ _ _ E1). reflexivity. }
  rewrite (bind_ok _ _ _ E1). cbn [res final emitted].
  rewrite bind_get_self, Hself.
  destruct (String.eqb (current_day st) (get_truncated_value lp "D")); cbn [negb].
  - cbn [ret res final emitted]. rewrite app_nil_r. reflexivity.
  - reflexivity.
Qed.


(** A restart never changes the processor. *)
Lemma restore_from_db_self (st : Processor Period RawData)
  (s : Session Period RawData) :
  fst (final (restore_from_db timestamp (st, s))) = st.
Proof.
  rewrite restore_from_db_outcome. unfold restore_outcome.
  destruct (last_current_period s) as [lp|]; [|reflexivity].
  set (o1 := if period_eq_dec lp (current_period st) then ret tt (st, s)
             else hourly_pass timestamp lp (kpis st) (st, s)).
  assert (H1 : fst (final o1) = st).
  { unfold o1. destruct (period_eq_dec lp (current_period st)); [reflexivity|].
    apply hourly_pass_self. }
  assert (H2 := yearly_pass_self timestamp lp (kpis st) (final o1)).
  destruct (res o1); [|exact H1].
  destruct (String.eqb _ _); [exact H1|].
  cbn [final]. rewrite H2. exact H1.
Qed.

Lemma jobs_by_kind (reference : Period) (ks : list (Kpi RawData)) :
  filter is_yearly (hourly_jobs reference ks) = []
  /\ filter (fun c => negb (is_yearly c)) (hourly_jobs reference ks)
     = hourly_jobs reference ks
  /\ filter is_yearly (yearly_jobs reference ks) = yearly_jobs reference ks
  /\ filter (fun c => negb (is_yearly c)) (yearly_jobs reference ks) = [].
Proof.
  unfold hourly_jobs, yearly_jobs.
  induction ks as [|k ks [H1 [H2 [H3 H4]]]]; [repeat split|].
  unfold is_yearly in *. simpl in *. rewrite H1, H2, H3, H4. repeat split.
Qed.

Lemma yearly_calls_app (t1 t2 : list (event Period)) :
  yearly_calls (t1 ++ t2) = yearly_calls t1 ++ yearly_calls t2.
Proof. unfold yearly_calls. rewrite calls_app. apply filter_app. Qed.

Lemma hourly_calls_app (t1 t2 : list (event Period)) :
  hourly_calls (t1 ++ t2) = hourly_calls t1 ++ hourly_calls t2.
Proof. unfold hourly_calls. rewrite calls_app. apply filter_app. Qed.

(** A processor is created with the day label of its period. *)
Lemma init_day_label (now : Period) :
  current_day (init (RawData := RawData) now)
  = get_truncated_value (current_period (init (RawData := RawData) now)) "D".
Proof. reflexivity. Qed.

(** The state a tick leaves, whether or not it raises: the stored period is
    the period of the tick and the tracked KPIs are untouched. *)
Lemma process_tick_state now (x : Processor Period RawData * Session Period RawData) :
  current_period (fst (final (process_tick timestamp now x))) = now
  /\ kpis (fst (final (process_tick timestamp now x))) = kpis (fst x).
Proof.
  destruct x as [st s].
  destruct (period_eq_dec (current_period st) now) as [E|Hne].
  - unfold process_tick. rewrite bind_get_self. cbn [fst].
    destruct (period_eq_dec (current_period st) now); [|contradiction].
    split; [exact E | reflexivity].
  - rewrite process_tick_outcome by exact Hne. unfold tick_outcome.
    set (x1 := (set_current_period now st, s)).
    assert (H1 := hourly_pass_self timestamp (current_period st) (kpis st) x1).
    set (o1 := hourly_pass timestamp (current_period st) (kpis st) x1) in *.
    assert (H2 := yearly_pass_self timestamp (current_period st) (kpis st) (final o1)).
    set (o2 := yearly_pass timestamp (current_period st) (kpis st) (final o1)) in *.
    destruct (res o1); [|cbn [final]; rewrite H1; split; reflexivity].
    destruct (String.eqb _ _); [cbn [final]; rewrite H1; split; reflexivity|].
    destruct (res o2); cbn [final fst]; rewrite H2, H1; split; reflexivity.
Qed.

(** A tick from a processor whose day label is that of its period, when the
    windows of the stored period resolve. *)
Lemma tick_summary now (st : Processor Period RawData) (s : Session Period RawData) :
  current_day st = get_truncated_value (current_period st) "D" ->
  windows_resolve timestamp (current_period st) ->
  let o := process_tick timestamp now (st, s) in
  (exists b, res o = Ok b)
  /\ fst (final o) = {| kpis := kpis st; current_period := now;
                        current_day := get_truncated_value now "D" |}
  /\ yearly_calls (emitted o) =
     (if String.eqb (current_day st) (get_truncated_value now "D") then []
      else yearly_jobs (current_period st) (kpis st))
  /\ hourly_calls (emitted o) =
     (if period_eq_dec (current_period st) now then []
      else hourly_jobs (current_period st) (kpis st)).
Proof.
  intros Hinv Hw o.
  destruct (jobs_by_kind (current_period st) (kpis st)) as [J1 [J2 [J3 J4]]].
  destruct (period_eq_dec (current_period st) now) as [E|Hne].
  - assert (Ho : o = {| res := Ok false; final := (st, s); emitted := [] |}).
    { unfold o, process_tick. rewrite bind_get_self. cbn [fst].
      destruct (period_eq_dec (current_period st) now); [reflexivity|contradiction]. }
    rewrite Ho. cbn [res final emitted fst].
    split; [eauto|]. split; [|split; [|reflexivity]].
    + destruct st; simpl in *; subst; reflexivity.
    + rewrite Hinv, E, String.eqb_refl. reflexivity.
  - unfold o. rewrite process_tick_outcome by exact Hne. unfold tick_outcome.
    set (x1 := (set_current_period now st, s)).
    destruct (hourly_pass_returns (kpis st) x1 Hw) as [R1 C1].
    assert (H1 := hourly_pass_self timestamp (current_period st) (kpis st) x1).
    set (o1 := hourly_pass timestamp (current_period st) (kpis st) x1) in *.
    destruct (yearly_pass_returns (kpis st) (final o1) Hw) as [R2 C2].
    assert (H2 := yearly_pass_self timestamp (current_period st) (kpis st) (final o1)).
    set (o2 := yearly_pass timestamp (current_period st) (kpis st) (final o1)) in *.
    rewrite R1.
    destruct (String.eqb_spec (current_day st) (get_truncated_value now "D")) as [Ed|Ed].
    + cbn [res final emitted]. split; [eauto|]. rewrite H1.
      split; [unfold x1, set_current_period; cbn [fst]; rewrite Ed; reflexivity|].
      unfold yearly_calls, hourly_calls. rewrite C1. auto.
    + rewrite R2. cbn [res final emitted fst]. split; [eauto|]. rewrite H2, H1.
      split; [reflexivity|].
      rewrite yearly_calls_app, hourly_calls_app.
      unfold yearly_calls, hourly_calls. rewrite C1, C2, J1, J2, J3, J4.
      rewrite app_nil_r. auto.
Qed.


Lemma prefix_refl {A} (l : list A) : prefix l l.
Proof. exists []. symmetry. apply app_nil_r. Qed.

Lemma hourly_pass_prefix reference ks (x : Processor Period RawData * Session Period RawData) :
  let o := hourly_pass timestamp reference ks x in
  prefix (calls (emitted o)) (hourly_jobs reference ks)
  /\ (res o = Ok tt -> calls (emitted o) = hourly_jobs reference ks).
Proof.
  unfold hourly_pass, hourly_jobs.
  apply for_each_prefix; [reflexivity | apply calls_app |].
  intros k y _.
  pose proof (for_each_prefix (S := Processor Period RawData * Session Period RawData)
                (@calls Period)
                (fun a => [(reference, unique_id k, a)]) ["D"; "W"; "M"]
                (fun agg_kind => on_snd (compute_kpi_values_for_aggregation_kind
                                           timestamp reference k agg_kind))
                eq_refl calls_app) as H.
  simpl flat_map in H. apply H.
  intros a z _. rewrite on_snd_emitted, calls_of_compute.
  split; [apply prefix_refl | reflexivity].
Qed.

Lemma yearly_pass_prefix reference ks (x : Processor Period RawData * Session Period RawData) :
  let o := yearly_pass timestamp reference ks x in
  prefix (calls (emitted o)) (yearly_jobs reference ks)
  /\ (res o = Ok tt -> calls (emitted o) = yearly_jobs reference ks).
Proof.
  unfold yearly_pass, yearly_jobs. rewrite map_as_flat_map.
  apply for_each_prefix; [reflexivity | apply calls_app |].
  intros k y _. rewrite on_snd_emitted, calls_of_compute.
  split; [apply prefix_refl | reflexivity].
Qed.

(** Every call a tick makes carries the period stored before the tick. *)
Lemma process_tick_reference now (st : Processor Period RawData) (s : Session Period RawData) :
  Forall (fun c : call => fst (fst c) = current_period st)
         (calls (emitted (process_tick timestamp now (st, s)))).
Proof.
  destruct (period_eq_dec (current_period st) now) as [E|Hne].
  - unfold process_tick. rewrite bind_get_self. cbn [fst].
    destruct (period_eq_dec (current_period st) now); [constructor|contradiction].
  - rewrite process_tick_outcome by exact Hne. unfold tick_outcome.
    set (x1 := (set_current_period now st, s)).
    assert (H1 := hourly_pass_calls timestamp (current_period st) (kpis st) x1).
    set (o1 := hourly_pass timestamp (current_period st) (kpis st) x1) in *.
    assert (H2 := yearly_pass_calls timestamp (current_period st) (kpis st) (final o1)).
    set (o2 := yearly_pass timestamp (current_period st) (kpis st) (final o1)) in *.
    unfold calls_about in *.
    assert (W : forall tr b, 
              Forall (fun c : call => fst (fst c) = current_period st /\ is_yearly c = b) (calls tr) ->
              Forall (fun c : call => fst (fst c) = current_period st) (calls tr)).
    { intros tr b H. eapply Forall_impl; [|exact H]. intros c [Hc _]. exact Hc. }
    destruct (res o1); [|cbn [emitted]; eapply W, H1].
    destruct (String.eqb _ _); [cbn [emitted]; eapply W, H1|].
    destruct (res o2); cbn [emitted]; rewrite calls_app;
      apply Forall_app; split; eapply W; eassumption.
Qed.

End TickOutcomes.

Section TickClaims.

Context {Period : Type} {PO : PeriodOps Period}.
Variable timestamp : datetime -> result Z.
Context {RawData : Type}.

(** Claim C6: a tick whose period is the stored [current_period] returns
    [False], emits nothing (no read, no write, no KPI computation) and
    leaves the processor and the session as they were. *)
Theorem process_tick_same_period (st : Processor Period RawData)
  (s : Session Period RawData) :
  process_tick timestamp (current_period st) (st, s) =
  {| res := Ok false; final := (st, s); emitted := [] |}.
Proof.
  unfold process_tick. rewrite bind_get_self. cbn [fst].
  destruct (period_eq_dec (current_period st) (current_period st)) as [_|H];
    [reflexivity | contradiction].
Qed.

(** Claim C9, amended: after every tick the stored [current_period] is the
    period handed to that tick, whether or not the tick raises and whatever
    its order relative to the period stored before; along a sequence of
    ticks the stored periods are the periods of the ticks, so they advance
    exactly as far as the clock source hands advancing periods.  A restart
    never changes [current_period], whether [restore_from_db] returns or
    raises. *)
Theorem current_period_follows_ticks (nows : list Period)
  (x : Processor Period RawData * Session Period RawData) :
  map (fun o => current_period (fst (final o))) (process_ticks timestamp nows x)
  = nows
  /\ current_period (fst (final (restore_from_db timestamp x)))
     = current_period (fst x).
Proof.
  split.
  - revert x. induction nows as [|now nows IH]; intros x; [reflexivity|].
    cbn [process_ticks map]. rewrite IH.
    destruct (process_tick_state timestamp now x) as [H _]. rewrite H.
    reflexivity.
  - destruct x as [st s]. rewrite restore_from_db_self. reflexivity.
Qed.

Lemma gating (d : string) (l : list Period) :
  forall (st : Processor Period RawData) (s : Session Period RawData),
  current_day st = get_truncated_value (current_period st) "D" ->
  Forall (fun p => get_truncated_value p "D" = d) l ->
  windows_resolve timestamp (current_period st) ->
  Forall (windows_resolve timestamp) l ->
  let outs := process_ticks timestamp l (st, s) in
  Forall (fun o => exists b, res o = Ok b) outs
  /\ map (fun o => yearly_calls (emitted o)) outs =
     match l with
     | [] => []
     | _ :: rest =>
         (if String.eqb (current_day st) d then []
          else yearly_jobs (current_period st) (kpis st))
         :: map (fun _ => []) rest
     end
  /\ map (fun o => hourly_calls (emitted o)) outs =
     map (fun pr => if period_eq_dec (fst pr) (snd pr) then []
                    else hourly_jobs (fst pr) (kpis st))
         (combine (current_period st :: l) l).
Proof.
  induction l as [|now rest IH]; intros st s Hinv Hd Hw Hws outs.
  - repeat split. constructor.
  - inversion Hd as [|? ? Hd1 Hd2]; subst.
    inversion Hws as [|? ? Hw1 Hw2]; subst.
    destruct (@tick_summary _ _ timestamp _ now st s Hinv Hw) as [Hr [Hst [Hy Hh]]].
    unfold outs. cbn [process_ticks].
    set (o := process_tick timestamp now (st, s)) in *.
    destruct (final o) as [st' s'] eqn:Ef. cbn [fst] in Hst.
    assert (Hinv' : current_day st' = get_truncated_value (current_period st') "D")
      by (rewrite Hst; reflexivity).
    assert (Hw' : windows_resolve timestamp (current_period st'))
      by (rewrite Hst; exact Hw1).
    destruct (IH st' s' Hinv' Hd2 Hw' Hw2) as [A [B C]].
    split; [constructor; assumption|]. split.
    + cbn [map]. rewrite Hy, B. f_equal.
      destruct rest as [|n2 r2]; [reflexivity|].
      rewrite Hst. cbn [current_day]. rewrite String.eqb_refl. reflexivity.
    + cbn [map combine fst snd]. rewrite Hh, C. f_equal.
      rewrite Hst. reflexivity.
Qed.

(** Claim C4, amended: take ticks whose periods all lie in one calendar day
    [d], from a processor whose [current_day] is the day label of its
    [current_period], and let the windows of the stored period and of the
    ticks' periods resolve.  Then every tick returns; the Yearly
    recomputation runs at the first tick, once per tracked KPI, when
    [current_day] is not yet [d], and at no tick otherwise; and Daily, Weekly
    and Monthly recomputation runs, once per tracked KPI, at exactly the
    ticks whose period differs from the stored one. *)
Theorem yearly_gating (d : string) (now : Period) (nows : list Period)
  (st : Processor Period RawData) (s : Session Period RawData) :
  current_day st = get_truncated_value (current_period st) "D" ->
  Forall (fun p => get_truncated_value p "D" = d) (now :: nows) ->
  windows_resolve timestamp (current_period st) ->
  Forall (windows_resolve timestamp) (now :: nows) ->
  let outs := process_ticks timestamp (now :: nows) (st, s) in
  Forall (fun o => exists b, res o = Ok b) outs
  /\ map (fun o => yearly_calls (emitted o)) outs =
     (if String.eqb (current_day st) d then []
      else yearly_jobs (current_period st) (kpis st))
     :: map (fun _ => []) nows
  /\ map (fun o => hourly_calls (emitted o)) outs =
     map (fun pr => if period_eq_dec (fst pr) (snd pr) then []
                    else hourly_jobs (fst pr) (kpis st))
         (combine (current_period st :: now :: nows) (now :: nows)).
Proof.
  intros Hinv Hd Hw Hws. exact (@gating d (now :: nows) st s Hinv Hd Hw Hws).
Qed.


(** What a restart replays.  [restore_from_db] never changes the processor
    (in particular it does not move [current_period] to the persisted
    period); without a persisted marker it only reads the marker; with a
    persisted period the replay due is, with that period as reference,
    Daily, Weekly and Monthly for every tracked KPI when the period differs
    from [current_period], then Yearly for every tracked KPI when its day
    label differs from [current_day].  The calls made are this replay when
    the restart returns, which it does whenever the windows of the persisted
    period resolve, and only an initial segment of it when a call raises. *)
Theorem restore_from_db_replays (st : Processor Period RawData)
  (s : Session Period RawData) :
  let o := restore_from_db timestamp (st, s) in
  fst (final o) = st
  /\ match last_current_period s with
     | None =>
         o = {| res := Ok tt; final := (st, s);
                emitted := [EvGetLastCurrentPeriod] |}
     | Some lastPeriod =>
         let replay :=
           (if period_eq_dec lastPeriod (current_period st) then []
            else hourly_jobs lastPeriod (kpis st))
           ++ (if String.eqb (current_day st)
                             (get_truncated_value lastPeriod "D") then []
               else yearly_jobs lastPeriod (kpis st)) in
         prefix (calls (emitted o)) replay
         /\ (res o = Ok tt -> calls (emitted o) = replay)
         /\ (windows_resolve timestamp lastPeriod -> res o = Ok tt)
     end.
Proof.
  intros o. unfold o. rewrite restore_from_db_outcome. unfold restore_outcome.
  destruct (last_current_period s) as [lp|]; [|split; reflexivity].
  set (m := if period_eq_dec lp (current_period st) then ret tt
            else hourly_pass timestamp lp (kpis st)).
  replace ((if period_eq_dec lp (current_period st)
            then ret tt (st, s)
            else hourly_pass timestamp lp (kpis st) (st, s))) with (m (st, s))
    by (unfold m; destruct (period_eq_dec lp (current_period st)); reflexivity).
  set (jobs1 := if period_eq_dec lp (current_period st) then []
                else hourly_jobs lp (kpis st)).
  assert (H1 : fst (final (m (st, s))) = st
               /\ prefix (calls (emitted (m (st, s)))) jobs1
               /\ (res (m (st, s)) = Ok tt -> calls (emitted (m (st, s))) = jobs1)
               /\ (windows_resolve timestamp lp -> res (m (st, s)) = Ok tt)).
  { unfold m, jobs1. destruct (period_eq_dec lp (current_period st)).
    - repeat split. apply prefix_refl.
    - split; [apply hourly_pass_self|].
      destruct (hourly_pass_prefix timestamp lp (kpis st) (st, s)) as [A B].
      split; [exact A|]. split; [exact B|].
      intros Hw. apply (hourly_pass_returns (kpis st) (st, s) Hw). }
  destruct H1 as [Hs1 [Hp1 [Hc1 Hr1]]].
  set (o1 := m (st, s)) in *.
  destruct (yearly_pass_prefix timestamp lp (kpis st) (final o1)) as [Hp2 Hc2].
  assert (Hs2 := yearly_pass_self timestamp lp (kpis st) (final o1)).
  assert (Hr2 := fun Hw : windows_resolve timestamp lp =>
                   proj1 (yearly_pass_returns (kpis st) (final o1) Hw)).
  set (o2 := yearly_pass timestamp lp (kpis st) (final o1)) in *.
  cbv zeta.
  destruct (res o1) as [[]|e] eqn:E1.
  - destruct (String.eqb (current_day st) (get_truncated_value lp "D")).
    + cbn [res final emitted calls]. rewrite app_nil_r.
      repeat split; auto.
    + cbn [res final emitted calls]. rewrite calls_app, (Hc1 eq_refl).
      split; [rewrite Hs2; exact Hs1|]. split; [|split].
      * destruct Hp2 as [l3 H3]. exists l3. rewrite H3, app_assoc. reflexivity.
      * intros H. rewrite (Hc2 H). reflexivity.
      * exact Hr2.
  - cbn [res final emitted calls]. split; [exact Hs1|].
    split; [|split].
    + destruct Hp1 as [l3 H3]. exists (l3 ++ (if String.eqb (current_day st)
                             (get_truncated_value lp "D") then []
               else yearly_jobs lp (kpis st))).
      rewrite H3, app_assoc. reflexivity.
    + discriminate.
    + intros Hw. specialize (Hr1 Hw). discriminate.
Qed.

End TickClaims.

(** ** The calendar: ordinals and dates *)

Lemma all_from_spec f k : forall z,
  all_from f k z = true ->
  forall r, z <= r < z + Z.of_nat k -> f r = true.
Proof.
  induction k as [|k IH]; intros z H r Hr; [lia|].
  simpl in H. apply andb_true_iff in H. destruct H as [Hz Hk].
  destruct (Z.eq_dec r z) as [->|Hne]; [exact Hz|].
  apply (IH (z + 1) Hk). lia.
Qed.

Lemma month_day_checked :
  all_from (month_day_ok false) 365 0 = true
  /\ all_from (month_day_ok true) 366 0 = true.
Proof. split; vm_compute; reflexivity. Qed.

Lemma month_day_spec (leap : bool) (n : Z) :
  0 <= n < (if leap then 366 else 365) ->
  let md := month_day leap n in
  1 <= fst md <= 12
  /\ 1 <= snd md <= month_length leap (fst md)
  /\ days_before_month_common (fst md) + leap_day leap (fst md) + snd md = n + 1.
Proof.
  intros Hn md.
  assert (H : month_day_ok leap n = true).
  { destruct month_day_checked as [H0 H1].
    destruct leap;
      [apply (@all_from_spec _ 366%nat 0 H1) | apply (@all_from_spec _ 365%nat 0 H0)];
      simpl Z.of_nat; lia. }
  unfold month_day_ok in H. fold md in H.
  repeat (apply andb_true_iff in H; destruct H as [H ?]).
  repeat match goal with
  | H : (_ <=? _) = true |- _ => apply Z.leb_le in H
  | H : (_ =? _) = true |- _ => apply Z.eqb_eq in H
  end. lia.
Qed.

Lemma ord2ymd_shape o :
  let n := o - 1 in
  let a := n / 146097 in
  let r1 := n mod 146097 in
  let b := r1 / 36524 in
  let r2 := r1 mod 36524 in
  let c := r2 / 1461 in
  let r3 := r2 mod 1461 in
  let e := r3 / 365 in
  let r4 := r3 mod 365 in
  let y := a * 400 + 1 + b * 100 + c * 4 + e in
  ord2ymd o =
  if (e =? 4) || (b =? 4) then {| dt_year := y - 1; dt_month := 12; dt_day := 31 |}
  else
    let md := month_day ((e =? 3) && (negb (c =? 24) || (b =? 3))) r4 in
    {| dt_year := y; dt_month := fst md; dt_day := snd md |}.
Proof.
  cbv zeta. unfold ord2ymd, month_day, leap_day. cbv zeta.
  destruct (_ || _); [reflexivity|].
  destruct (_ <? _); reflexivity.
Qed.

Lemma days_before_year_split a b c e :
  0 <= a -> 0 <= b <= 3 -> 0 <= c <= 24 -> 0 <= e <= 3 ->
  let y := a * 400 + 1 + b * 100 + c * 4 + e in
  days_before_year y = a * 146097 + b * 36524 + c * 1461 + e * 365
  /\ is_leap y = (e =? 3) && (negb (c =? 24) || (b =? 3)).
Proof.
  intros Ha Hb Hc He y. unfold days_before_year, is_leap, y. cbv zeta.
  split.
  - Z.div_mod_to_equations. lia.
  - destruct (e =? 3) eqn:E3; destruct (c =? 24) eqn:E24; destruct (b =? 3) eqn:B3;
      cbn [andb orb negb];
      repeat match goal with
      | H : (_ =? _) = true |- _ => apply Z.eqb_eq in H
      | H : (_ =? _) = false |- _ => apply Z.eqb_neq in H
      end;
      repeat match goal with
      | |- context [?x mod ?k =? 0] =>
          let Q := fresh in destruct (x mod k =? 0) eqn:Q;
          [apply Z.eqb_eq in Q | apply Z.eqb_neq in Q]
      end; cbn [andb orb negb]; try reflexivity; exfalso;
      Z.div_mod_to_equations; lia.
Qed.

Lemma days_in_month_length y m : days_in_month y m = month_length (is_leap y) m.
Proof. reflexivity. Qed.

Lemma days_before_month_leap y m :
  days_before_month y m = days_before_month_common m + leap_day (is_leap y) m.
Proof. reflexivity. Qed.

(** [fromordinal] then [toordinal] gives the ordinal back, and the date
    found is a date of the calendar. *)
Lemma ord2ymd_toordinal o :
  1 <= o -> toordinal (ord2ymd o) = o /\ valid_date (ord2ymd o).
Proof.
  intros Ho. rewrite ord2ymd_shape. cbv zeta.
  set (n := o - 1).
  set (a := n / 146097). set (r1 := n mod 146097).
  set (b := r1 / 36524). set (r2 := r1 mod 36524).
  set (c := r2 / 1461). set (r3 := r2 mod 1461).
  set (e := r3 / 365). set (r4 := r3 mod 365).
  assert (Hn : n = a * 146097 + b * 36524 + c * 1461 + e * 365 + r4
               /\ 0 <= a /\ 0 <= b <= 4 /\ 0 <= c <= 24 /\ 0 <= e <= 4
               /\ 0 <= r4 < 365
               /\ (b = 4 -> c = 0 /\ e = 0 /\ r4 = 0)
               /\ (e = 4 -> c <= 23 /\ r4 = 0)).
  { unfold r4, e, r3, c, r2, b, r1, a. Z.div_mod_to_equations. lia. }
  destruct Hn as [Hn [Ha [Hb [Hc [He [Hr4 [Hb4 He4]]]]]]].
  assert (Hon : o = n + 1) by (unfold n; lia).
  unfold toordinal, valid_date, ymd2ord.
  destruct ((e =? 4) || (b =? 4)) eqn:Esp; cbn [dt_year dt_month dt_day].
  - rewrite days_in_month_length, days_before_month_leap.
    apply orb_true_iff in Esp. destruct Esp as [E|E]; apply Z.eqb_eq in E.
    + destruct (He4 E) as [Hc23 Hr0].
      assert (Hb3 : b <= 3) by (destruct (Z.eq_dec b 4) as [B|B]; [destruct (Hb4 B); lia | lia]).
      destruct (@days_before_year_split a b c 3) as [Hd Hl]; try lia.
      cbv zeta in Hd, Hl.
      replace (a * 400 + 1 + b * 100 + c * 4 + e - 1)
        with (a * 400 + 1 + b * 100 + c * 4 + 3) by lia.
      rewrite Hd, Hl.
      replace (c =? 24) with false by (symmetry; apply Z.eqb_neq; lia).
      change (days_before_month_common 12) with 334. cbn. lia.
    + destruct (Hb4 E) as [Hc0 [He0 Hr0]].
      destruct (@days_before_year_split a 3 24 3) as [Hd Hl]; try lia.
      cbv zeta in Hd, Hl.
      replace (a * 400 + 1 + b * 100 + c * 4 + e - 1)
        with (a * 400 + 1 + 3 * 100 + 24 * 4 + 3) by lia.
      rewrite Hd, Hl. change (days_before_month_common 12) with 334. cbn. lia.
  - apply orb_false_iff in Esp. destruct Esp as [E4 B4].
    apply Z.eqb_neq in E4, B4.
    destruct (@days_before_year_split a b c e) as [Hd Hl]; try lia.
    cbv zeta in Hd, Hl.
    rewrite days_in_month_length, days_before_month_leap, Hd, Hl.
    set (leap := (e =? 3) && (negb (c =? 24) || (b =? 3))).
    destruct (@month_day_spec leap r4) as [Hm [Hday Hsum]];
      [destruct leap; lia|].
    cbv zeta in Hm, Hday, Hsum. lia.
Qed.

Lemma days_before_next_year y :
  days_before_year (y + 1) = days_before_year y + 365 + (if is_leap y then 1 else 0).
Proof.
  unfold days_before_year, is_leap. cbv zeta.
  replace (y + 1 - 1) with y by lia.
  repeat match goal with
  | |- context [?x mod ?k =? 0] =>
      let Q := fresh in destruct (x mod k =? 0) eqn:Q;
      [apply Z.eqb_eq in Q | apply Z.eqb_neq in Q]
  end; cbn [andb orb negb]; Z.div_mod_to_equations; lia.
Qed.

Lemma days_before_year_mono y1 y2 :
  y1 <= y2 -> days_before_year y1 <= days_before_year y2.
Proof.
  intros H. unfold days_before_year. cbv zeta. Z.div_mod_to_equations. lia.
Qed.

Ltac month_cases m :=
  let H := fresh in
  assert (H : m = 1 \/ m = 2 \/ m = 3 \/ m = 4 \/ m = 5 \/ m = 6 \/ m = 7
              \/ m = 8 \/ m = 9 \/ m = 10 \/ m = 11 \/ m = 12) by lia;
  repeat (destruct H as [H|H]; [subst m|]); [..|subst m].

Ltac month_tables :=
  cbv [leap_day month_length Z.ltb Z.eqb Z.compare Pos.compare Pos.compare_cont
       Pos.eqb andb orb] in *;
  repeat match goal with
  | |- context [days_before_month_common ?k] =>
      let v := eval vm_compute in (days_before_month_common k) in
      change (days_before_month_common k) with v
  | H : context [days_before_month_common ?k] |- _ =>
      let v := eval vm_compute in (days_before_month_common k) in
      change (days_before_month_common k) with v in H
  end.

Lemma day_of_year_bounds (leap : bool) m d :
  1 <= m <= 12 -> 1 <= d <= month_length leap m ->
  1 <= days_before_month_common m + leap_day leap m + d
    <= 365 + (if leap then 1 else 0).
Proof.
  intros Hm Hd. month_cases m; destruct leap; month_tables; lia.
Qed.

Lemma day_of_year_inj (leap : bool) m1 d1 m2 d2 :
  1 <= m1 <= 12 -> 1 <= d1 <= month_length leap m1 ->
  1 <= m2 <= 12 -> 1 <= d2 <= month_length leap m2 ->
  days_before_month_common m1 + leap_day leap m1 + d1
  = days_before_month_common m2 + leap_day leap m2 + d2 ->
  m1 = m2 /\ d1 = d2.
Proof.
  intros Hm1 Hd1 Hm2 Hd2 H.
  month_cases m1; month_cases m2; destruct leap; month_tables; lia.
Qed.

Lemma toordinal_inj dt1 dt2 :
  valid_date dt1 -> valid_date dt2 -> toordinal dt1 = toordinal dt2 -> dt1 = dt2.
Proof.
  destruct dt1 as [y1 m1 d1], dt2 as [y2 m2 d2].
  unfold valid_date, toordinal, ymd2ord. cbn [dt_year dt_month dt_day].
  rewrite !days_in_month_length, !days_before_month_leap.
  intros [Hy1 [Hm1 Hd1]] [Hy2 [Hm2 Hd2]] H.
  pose proof (@day_of_year_bounds (is_leap y1) m1 d1 Hm1 Hd1) as B1.
  pose proof (@day_of_year_bounds (is_leap y2) m2 d2 Hm2 Hd2) as B2.
  pose proof (days_before_next_year y1) as N1.
  pose proof (days_before_next_year y2) as N2.
  assert (Hy : y1 = y2).
  { destruct (Z.lt_trichotomy y1 y2) as [L|[E|L]]; [|exact E|].
    - pose proof (@days_before_year_mono (y1 + 1) y2 ltac:(lia)). lia.
    - pose proof (@days_before_year_mono (y2 + 1) y1 ltac:(lia)). lia. }
  subst y2.
  destruct (@day_of_year_inj (is_leap y1) m1 d1 m2 d2) as [-> ->];
    try assumption; [lia | reflexivity].
Qed.

Lemma toordinal_positive dt : valid_date dt -> 1 <= toordinal dt.
Proof.
  intros Hv. destruct dt as [y m d]. unfold valid_date, toordinal, ymd2ord in *.
  cbn [dt_year dt_month dt_day] in *. destruct Hv as [Hy [Hm Hd]].
  rewrite days_in_month_length in Hd. rewrite days_before_month_leap.
  pose proof (@day_of_year_bounds (is_leap y) m d Hm Hd).
  pose proof (@days_before_year_mono 1 y ltac:(lia)).
  change (days_before_year 1) with 0 in *. lia.
Qed.

(** [toordinal] then [fromordinal] gives a date of the calendar back. *)
Lemma toordinal_ord2ymd dt :
  valid_date dt -> ord2ymd (toordinal dt) = dt.
Proof.
  intros Hv. pose proof (toordinal_positive Hv) as Ho.
  destruct (@ord2ymd_toordinal (toordinal dt) Ho) as [Ht Hv'].
  apply toordinal_inj; assumption.
Qed.

(** ** Windows of the four granularities *)

Lemma in_range_fits y m d :
  in_range {| dt_year := y; dt_month := m; dt_day := d |} ->
  fits_int y && fits_int m && fits_int d = true.
Proof.
  unfold in_range, valid_date, fits_int, MAXYEAR.
  cbn [dt_year dt_month dt_day]. intros [[Hy [Hm Hd]] Hmax].
  pose proof (days_in_month_bounds y m).
  rewrite !(proj2 (Z.leb_le _ _)) by lia. reflexivity.
Qed.

Lemma new_in_range y m d :
  in_range {| dt_year := y; dt_month := m; dt_day := d |} ->
  PyDatetime.new y m d = Ok {| dt_year := y; dt_month := m; dt_day := d |}.
Proof.
  intros H. unfold PyDatetime.new. rewrite (in_range_fits H).
  revert H. unfold in_range, valid_date, MINYEAR, MAXYEAR.
  cbn [dt_year dt_month dt_day]. intros [[Hy [Hm Hd]] Hmax].
  rewrite !(proj2 (Z.leb_le _ _)) by lia. reflexivity.
Qed.

Lemma new_out_of_range y m d :
  fits_int y && fits_int m && fits_int d = true ->
  ~ in_range {| dt_year := y; dt_month := m; dt_day := d |} ->
  PyDatetime.new y m d = Raise ValueError.
Proof.
  intros Hf. unfold PyDatetime.new. rewrite Hf.
  unfold in_range, valid_date, MINYEAR, MAXYEAR.
  cbn [dt_year dt_month dt_day]. intros H.
  match goal with
  | |- context [if ?c then Ok _ else _] => destruct c eqn:E
  end; [|reflexivity].
  exfalso. apply H.
  repeat (apply andb_true_iff in E; destruct E as [E ?]).
  repeat match goal with
  | H : (_ <=? _) = true |- _ => apply Z.leb_le in H
  end. lia.
Qed.

Lemma add_days_in_range dt n :
  1 <= toordinal dt + n <= MAXORDINAL ->
  exists dt', add_days dt n = Ok dt'
              /\ valid_date dt' /\ toordinal dt' = toordinal dt + n.
Proof.
  intros H. unfold add_days. cbv zeta.
  replace (1 <=? toordinal dt + n) with true by (symmetry; apply Z.leb_le; lia).
  replace (toordinal dt + n <=? MAXORDINAL) with true
    by (symmetry; apply Z.leb_le; lia).
  exists (ord2ymd (toordinal dt + n)).
  destruct (@ord2ymd_toordinal (toordinal dt + n)) as [Ht Hv]; [lia|].
  auto.
Qed.

Lemma Ok_inj {A} (a b : A) : Ok a = Ok b -> a = b.
Proof. intros H. injection H as H. exact H. Qed.

Lemma new_returns y m d dt :
  PyDatetime.new y m d = Ok dt ->
  dt = {| dt_year := y; dt_month := m; dt_day := d |}.
Proof.
  unfold PyDatetime.new. destruct (fits_int y && fits_int m && fits_int d);
    [|discriminate].
  match goal with
  | |- context [if ?c then Ok _ else _] => destruct c
  end; [|discriminate].
  intros H. apply Ok_inj in H. symmetry. exact H.
Qed.

Lemma add_days_returns dt n dt' :
  add_days dt n = Ok dt' ->
  1 <= toordinal dt + n /\ dt' = ord2ymd (toordinal dt + n).
Proof.
  unfold add_days. cbv zeta.
  destruct (1 <=? toordinal dt + n) eqn:E; cbn [andb]; [|discriminate].
  destruct (_ <=? MAXORDINAL); [|discriminate].
  intros H. apply Ok_inj in H. apply Z.leb_le in E. auto.
Qed.

(** One step of a chain of fallible calls that returned. *)
Ltac returned H :=
  match type of H with
  | rbind ?r _ = Ok _ =>
      let x := fresh "x" in
      let E := fresh "E" in
      destruct r as [x|] eqn:E; [cbn [rbind] in H | discriminate H]
  end.

Section WindowProperties.

Context {Period : Type} {PO : PeriodOps Period}.
Variable timestamp : datetime -> result Z.

(** Property X1: Daily window: for a reference date of the calendar before
    9999-12-31, the window is the one between midnight of that date and
    midnight of the next calendar day, whatever month or year ends in
    between: the resolver returns the two converted instants when both
    conversions return, and raises what the first failing conversion
    raises. *)
Theorem daily_window_next_day (now : Period) :
  in_range (reference_date now) ->
  toordinal (reference_date now) < MAXORDINAL ->
  exists stop_dt,
    get_timestamps timestamp "D" now
      = window_between timestamp (reference_date now) stop_dt
    /\ valid_date stop_dt
    /\ toordinal stop_dt = toordinal (reference_date now) + 1.
Proof.
  intros Hr Hlast. unfold get_timestamps, window_between.
  cbn [String.eqb Ascii.eqb Bool.eqb].
  rewrite (new_in_range Hr). cbn [rbind]. fold (reference_date now).
  pose proof (toordinal_positive (proj1 Hr)) as Hpos.
  destruct (@add_days_in_range (reference_date now) 1) as [dt' [Ha [Hv Ho]]];
    [lia|].
  exists dt'. split; [|auto].
  destruct (timestamp (reference_date now)); cbn [rbind]; [|reflexivity].
  rewrite Ha. reflexivity.
Qed.

(** Property X2: Weekly window: for a reference date of the calendar and a
    weekday field between 1 and 7, when the 7 days fit in the calendar, the
    window is the one between two midnights: the first [weekday - 1] days
    before the reference date, the second 7 days later, with the reference
    date in between; when the weekday field is the ISO weekday of the date
    (Monday is 1), the first is a Monday.  The resolver returns the two
    converted instants when both conversions return, and raises what the
    first failing conversion raises. *)
Theorem weekly_window_monday (now : Period) :
  in_range (reference_date now) ->
  1 <= weekday now <= 7 ->
  1 <= toordinal (reference_date now) + 1 - weekday now ->
  toordinal (reference_date now) + 1 - weekday now + 7 <= MAXORDINAL ->
  exists start_dt stop_dt,
    get_timestamps timestamp "W" now
      = window_between timestamp start_dt stop_dt
    /\ toordinal start_dt = toordinal (reference_date now) - (weekday now - 1)
    /\ toordinal stop_dt = toordinal start_dt + 7
    /\ toordinal start_dt <= toordinal (reference_date now) < toordinal stop_dt
    /\ (weekday now = isoweekday (reference_date now) -> isoweekday start_dt = 1).
Proof.
  intros Hr Hw Hlo Hhi. unfold get_timestamps, window_between.
  cbn [String.eqb Ascii.eqb Bool.eqb].
  rewrite (new_in_range Hr). cbn [rbind]. fold (reference_date now).
  destruct (@add_days_in_range (reference_date now) (1 - weekday now))
    as [dt1 [Ha1 [Hv1 Ho1]]]; [lia|].
  rewrite Ha1. cbn [rbind].
  destruct (@add_days_in_range dt1 7) as [dt2 [Ha2 [Hv2 Ho2]]]; [lia|].
  exists dt1, dt2. split.
  { destruct (timestamp dt1); cbn [rbind]; [|reflexivity].
    rewrite Ha2. reflexivity. }
  repeat split; try lia.
  intros Hiso. unfold isoweekday in *. rewrite Ho1, Hiso.
  Z.div_mod_to_equations. lia.
Qed.

Lemma days_before_next_month y m :
  1 <= m <= 11 ->
  days_before_month y (m + 1) = days_before_month y m + days_in_month y m.
Proof.
  intros Hm. rewrite !days_before_month_leap, days_in_month_length.
  assert (H : m = 1 \/ m = 2 \/ m = 3 \/ m = 4 \/ m = 5 \/ m = 6 \/ m = 7
              \/ m = 8 \/ m = 9 \/ m = 10 \/ m = 11) by lia.
  repeat (destruct H as [H|H]; [subst m|]); [..|subst m];
    destruct (is_leap y); cbn [Z.add Pos.add Pos.succ]; month_tables; lia.
Qed.

(** Property X3: Monthly window: for a reference date of the calendar in
    January to November, the window is the one between midnight of the
    first day of the month and midnight of the first day of the next month,
    as many days apart as the month has, with the reference date in between;
    the resolver returns the two converted instants when both conversions
    return, and raises what the first failing conversion raises.  In
    December the resolver raises [ValueError] before any conversion. *)
Theorem monthly_window_calendar_month (now : Period) :
  in_range (reference_date now) ->
  (month now <= 11 ->
   exists start_dt stop_dt,
     get_timestamps timestamp "M" now
       = window_between timestamp start_dt stop_dt
     /\ toordinal start_dt = toordinal (reference_date now) - (day now - 1)
     /\ toordinal stop_dt = toordinal start_dt + days_in_month (year now) (month now)
     /\ toordinal start_dt <= toordinal (reference_date now) < toordinal stop_dt)
  /\ (month now = 12 ->
      get_timestamps timestamp "M" now = Raise ValueError).
Proof.
  intros Hr. pose proof (in_range_fits Hr) as Hf. revert Hr Hf.
  intros [[Hy [Hm Hd]] Hmax] Hf. unfold reference_date in *.
  cbn [dt_year dt_month dt_day] in *. split.
  - intros Hm11.
    exists {| dt_year := year now; dt_month := month now; dt_day := 1 |},
           {| dt_year := year now; dt_month := month now + 1; dt_day := 1 |}.
    split; [apply monthly_window_before_december; unfold MAXYEAR in *; lia|].
    unfold toordinal, ymd2ord. cbn [dt_year dt_month dt_day].
    rewrite days_before_next_month by lia. lia.
  - intros H12. rewrite monthly_window_in_december by exact H12.
    apply andb_true_iff in Hf. destruct Hf as [Hf _].
    apply andb_true_iff in Hf. destruct Hf as [Hf _].
    rewrite Hf. reflexivity.
Qed.

(** Property X4: Yearly window: whatever the other fields of the period, for
    years 1 to 9998 the window is the one between midnight of January 1 of
    the year and midnight of January 1 of the next, 365 days apart, 366 in a
    leap year; the resolver returns the two converted instants when both
    conversions return, and raises what the first failing conversion raises.
    For any other year that fits a C [int] the resolver raises [ValueError],
    and for a year that does not it raises [OverflowError], before any
    conversion. *)
Theorem yearly_window_bounds (now : Period) :
  (1 <= year now <= 9998 ->
   get_timestamps timestamp "Y" now
     = window_between timestamp
         {| dt_year := year now; dt_month := 1; dt_day := 1 |}
         {| dt_year := year now + 1; dt_month := 1; dt_day := 1 |}
   /\ toordinal {| dt_year := year now + 1; dt_month := 1; dt_day := 1 |}
      = toordinal {| dt_year := year now; dt_month := 1; dt_day := 1 |}
        + 365 + (if is_leap (year now) then 1 else 0))
  /\ (fits_int (year now) = true -> ~ 1 <= year now <= 9998 ->
      get_timestamps timestamp "Y" now = Raise ValueError)
  /\ (fits_int (year now) = false ->
      get_timestamps timestamp "Y" now = Raise OverflowError).
Proof.
  unfold get_timestamps. cbn [String.eqb Ascii.eqb Bool.eqb].
  split; [|split].
  - intros H. split.
    + rewrite !new_in_range; [reflexivity| |];
        unfold in_range, valid_date, MAXYEAR; cbn; lia.
    + unfold toordinal, ymd2ord. cbn [dt_year dt_month dt_day].
      rewrite days_before_next_year, !days_before_month_leap.
      month_tables. lia.
  - intros Hf H.
    destruct (Z_le_gt_dec 1 (year now)) as [H1|H1].
    + destruct (Z_le_gt_dec (year now) 9999) as [H2|H2].
      * rewrite (@new_in_range (year now) 1 1)
          by (unfold in_range, valid_date, MAXYEAR; cbn; lia).
        cbn [rbind]. rewrite new_out_of_range; [reflexivity| |].
        -- unfold fits_int. rewrite !(proj2 (Z.leb_le _ _)) by lia.
           reflexivity.
        -- unfold in_range, valid_date, MAXYEAR; cbn; lia.
      * rewrite new_out_of_range; [reflexivity| |].
        -- rewrite Hf. reflexivity.
        -- unfold in_range, valid_date, MAXYEAR; cbn; lia.
    + rewrite new_out_of_range; [reflexivity| |].
      * rewrite Hf. reflexivity.
      * unfold in_range, valid_date, MAXYEAR; cbn; lia.
  - intros Hf. unfold PyDatetime.new at 1. rewrite Hf. reflexivity.
Qed.

(** Property X5: Windows of consecutive days and of consecutive weeks abut: when the
    reference date of [q] is the day after that of [p], the Daily window of
    [q] starts where that of [p] stops; when it is 7 days after with the
    same weekday field, so do the Weekly windows. *)
Theorem daily_weekly_windows_abut (p q : Period) (wp wq : Timestamps) :
  valid_date (reference_date q) ->
  (toordinal (reference_date q) = toordinal (reference_date p) + 1 ->
   get_timestamps timestamp "D" p = Ok wp ->
   get_timestamps timestamp "D" q = Ok wq ->
   stop wp = start wq)
  /\ (toordinal (reference_date q) = toordinal (reference_date p) + 7 ->
      weekday q = weekday p ->
      get_timestamps timestamp "W" p = Ok wp ->
      get_timestamps timestamp "W" q = Ok wq ->
      stop wp = start wq).
Proof.
  intros Hvq. unfold get_timestamps. cbn [String.eqb Ascii.eqb Bool.eqb].
  split.
  - intros Hnext Hp Hq.
    returned Hp. rename E into Ep. returned Hq. rename E into Eq.
    apply new_returns in Ep, Eq. fold (reference_date p) in Ep.
    fold (reference_date q) in Eq. subst x x0.
    returned Hp. rename E into Tp0. returned Hp. rename E into Ap.
    returned Hp. rename E into Tp1.
    returned Hq. rename E into Tq0. returned Hq. returned Hq.
    apply add_days_returns in Ap. destruct Ap as [_ ->].
    apply Ok_inj in Hp, Hq. subst wp wq. cbn [start stop].
    rewrite <- Hnext, (toordinal_ord2ymd Hvq), Tq0 in Tp1.
    apply Ok_inj in Tp1. symmetry. exact Tp1.
  - intros Hnext Hwd Hp Hq.
    returned Hp. rename E into Ep. returned Hq. rename E into Eq.
    apply new_returns in Ep, Eq. fold (reference_date p) in Ep.
    fold (reference_date q) in Eq. subst x x0.
    returned Hp. rename E into Sp. returned Hp. rename E into Tp0.
    returned Hp. rename E into Ap. returned Hp. rename E into Tp1.
    returned Hq. rename E into Sq. returned Hq. rename E into Tq0.
    returned Hq. returned Hq.
    apply add_days_returns in Sp, Sq, Ap.
    destruct Sp as [B1 ->]. destruct Sq as [_ ->]. destruct Ap as [_ ->].
    apply Ok_inj in Hp, Hq. subst wp wq. cbn [start stop].
    rewrite (proj1 (@ord2ymd_toordinal _ B1)) in Tp1.
    replace (toordinal (reference_date p) + (1 - weekday p) + 7)
      with (toordinal (reference_date q) + (1 - weekday q)) in Tp1 by lia.
    rewrite Tq0 in Tp1. apply Ok_inj in Tp1. symmetry. exact Tp1.
Qed.

(** Property X6: Windows of consecutive months of a year and of consecutive years
    abut. *)
Theorem monthly_yearly_windows_abut (p q : Period) (wp wq : Timestamps) :
  (year q = year p -> month q = month p + 1 ->
   get_timestamps timestamp "M" p = Ok wp ->
   get_timestamps timestamp "M" q = Ok wq ->
   stop wp = start wq)
  /\ (year q = year p + 1 ->
      get_timestamps timestamp "Y" p = Ok wp ->
      get_timestamps timestamp "Y" q = Ok wq ->
      stop wp = start wq).
Proof.
  unfold get_timestamps. cbn [String.eqb Ascii.eqb Bool.eqb]. split.
  - intros Hy Hm Hp Hq. rewrite Hy, Hm in Hq.
    returned Hp. returned Hp. cbn [rbind] in Hq. returned Hq.
    returned Hp. returned Hp. cbn [rbind] in Hq. returned Hq.
    apply Ok_inj in Hp, Hq. subst wp wq. reflexivity.
  - intros Hy Hp Hq. rewrite Hy in Hq.
    returned Hp. returned Hp. cbn [rbind] in Hq. returned Hq.
    returned Hp. returned Hp. cbn [rbind] in Hq. returned Hq.
    apply Ok_inj in Hp, Hq. subst wp wq. reflexivity.
Qed.

End WindowProperties.

(** ** What a call writes, and what it leaves *)

Section ComputeProperties.

Context {Period : Type} {PO : PeriodOps Period}.
Variable timestamp : datetime -> result Z.
Context {RawData : Type}.

Lemma rows_after_others id a cur keep v rows :
  other_rows id a (rows_after id a cur keep v rows) = other_rows id a rows.
Proof.
  unfold other_rows, rows_after, refreshed, update_rows, pruned.
  rewrite filter_app.
  replace (filter _ (if existsb (matches_current cur) (stored_values id a rows)
                     then [] else [new_row id a cur v])) with (@nil KpiValueRow)
    by (destruct (existsb _ _); [reflexivity|];
        cbn [filter]; rewrite row_in_new_row; reflexivity).
  rewrite app_nil_r, filter_map_swap, filter_twice.
  rewrite (filter_ext _ (fun r => negb (row_in id a r))).
  - rewrite (map_ext_in _ (fun r => r)); [apply map_id|].
    intros r Hr. apply filter_In in Hr. destruct Hr as [_ Hr].
    unfold row_is. destruct (row_in id a r); [discriminate|reflexivity].
  - intros r. destruct (row_is id a cur r) eqn:E.
    + rewrite row_in_set. destruct (row_in id a r); [|reflexivity].
      cbn. rewrite andb_false_r. reflexivity.
    + destruct (row_in id a r); [|reflexivity].
      cbn. rewrite andb_false_r. reflexivity.
Qed.

Lemma compute_frame_all now (kpi : Kpi RawData) a (s : Session Period RawData) :
  let o := compute_kpi_values_for_aggregation_kind timestamp now kpi a s in
  other_rows (unique_id kpi) a (kpi_values (final o))
    = other_rows (unique_id kpi) a (kpi_values s)
  /\ last_current_period (final o) = last_current_period s
  /\ raw_data (final o) = raw_data s.
Proof.
  cbv zeta.
  destruct (get_aggregations_to_keep a now) as [keep|e] eqn:Hk.
  - destruct (get_timestamps timestamp a now) as [ts|e] eqn:Ht.
    + erewrite compute_completes by eassumption. cbn [final].
      unfold with_kpi_values. cbn [kpi_values last_current_period raw_data].
      rewrite rows_after_others. auto.
    + erewrite compute_raises; [cbn [final]; auto|]. right. eauto.
  - erewrite compute_raises; [cbn [final]; auto|]. left. exact Hk.
Qed.

(** Property X7: A call touches only the rows of its own KPI and granularity: the
    rows of every other KPI or granularity, the period marker and the raw
    events are as before, whether the call returns or raises. *)
Theorem compute_frame (now : Period) (kpi : Kpi RawData) (agg_kind : string)
  (s : Session Period RawData) :
  let o := compute_kpi_values_for_aggregation_kind timestamp now kpi agg_kind s in
  other_rows (unique_id kpi) agg_kind (kpi_values (final o))
    = other_rows (unique_id kpi) agg_kind (kpi_values s)
  /\ last_current_period (final o) = last_current_period s
  /\ raw_data (final o) = raw_data s.
Proof. apply compute_frame_all. Qed.

Lemma current_label_retained (now : Period) a keep :
  get_truncated_value (get_shifted now {| rd_months := 0; rd_days := 0 |}) a
  = get_truncated_value now a ->
  get_aggregations_to_keep a now = Ok keep ->
  to_delete keep (get_truncated_value now a) = false.
Proof.
  intros Hzero. unfold get_aggregations_to_keep.
  destruct (String.eqb_spec a "D") as [->|_];
    [|destruct (String.eqb_spec a "W") as [->|_];
      [|destruct (String.eqb_spec a "M") as [->|_];
        [|destruct (String.eqb a "Y")]]];
    intros H; try discriminate; apply Ok_inj in H; subst keep; try reflexivity;
    cbn [seq map to_delete str_in existsb Z.of_nat Z.opp];
    unfold relativedelta_days, relativedelta_weeks, relativedelta_months;
    cbn [Z.mul]; rewrite Hzero, String.eqb_refl; reflexivity.
Qed.

(** Property X8: What a call that returns leaves under the current bucket label,
    when a zero shift keeps the label of the reference period: at least one
    Value carries the current label, and every Value that does holds the
    number the KPI computes on the window of the reference period. *)
Theorem compute_stores_current (now : Period) (kpi : Kpi RawData)
  (agg_kind : string) (s : Session Period RawData) (ts : Timestamps) :
  get_truncated_value (get_shifted now {| rd_months := 0; rd_days := 0 |}) agg_kind
  = get_truncated_value now agg_kind ->
  get_timestamps timestamp agg_kind now = Ok ts ->
  let o := compute_kpi_values_for_aggregation_kind timestamp now kpi agg_kind s in
  let current_agg_value := get_truncated_value now agg_kind in
  res o = Ok tt
  /\ In current_agg_value (labels_of (unique_id kpi) agg_kind (kpi_values (final o)))
  /\ forall r, In r (kpi_values (final o)) ->
       row_is (unique_id kpi) agg_kind current_agg_value r = true ->
       row_kpi_value r = get_value kpi agg_kind (start ts) (stop ts) (raw_data s).
Proof.
  intros Hzero Ht o cur.
  destruct (window_implies_retention _ _ _ Ht) as [keep Hk].
  pose proof (current_label_retained _ _ Hzero Hk) as Hcur.
  unfold o. erewrite compute_completes by eassumption.
  cbn [res final]. unfold with_kpi_values. cbn [kpi_values].
  split; [reflexivity|]. split.
  - apply matched_iff. apply rows_after_matched. exact Hcur.
  - intros r Hr Hrow. unfold rows_after in Hr. apply in_app_or in Hr.
    destruct Hr as [Hr|Hr].
    + unfold refreshed, update_rows in Hr. apply in_map_iff in Hr.
      destruct Hr as [r0 [Hr0 _]].
      destruct (row_is (unique_id kpi) agg_kind (get_truncated_value now agg_kind) r0) eqn:E0.
      * rewrite <- Hr0. reflexivity.
      * subst r0. unfold cur in Hrow. congruence.
    + destruct (existsb _ _); [destruct Hr|].
      destruct Hr as [<-|[]]. reflexivity.
Qed.

(** Property X9: Retention bound: after a Daily, Weekly or Monthly call that
    returns (a zero shift keeping the label of the reference period), every
    label stored for the KPI and granularity is one of the labels the
    retention resolver returned; with labels pairwise distinct before the
    call there are at most as many Values as retained labels. *)
Theorem compute_retention_bound (now : Period) (kpi : Kpi RawData)
  (agg_kind : string) (s : Session Period RawData) (ts : Timestamps)
  (keep : list string) :
  get_truncated_value (get_shifted now {| rd_months := 0; rd_days := 0 |}) agg_kind
  = get_truncated_value now agg_kind ->
  get_timestamps timestamp agg_kind now = Ok ts ->
  get_aggregations_to_keep agg_kind now = Ok (Some keep) ->
  let o := compute_kpi_values_for_aggregation_kind timestamp now kpi agg_kind s in
  let labels := labels_of (unique_id kpi) agg_kind (kpi_values (final o)) in
  incl labels keep
  /\ (NoDup (labels_of (unique_id kpi) agg_kind (kpi_values s)) ->
      (List.length labels <= List.length keep)%nat).
Proof.
  intros Hzero Ht Hk o labels.
  pose proof (current_label_retained _ _ Hzero Hk) as Hcur.
  assert (Hne : keep <> []).
  { revert Hk. unfold get_aggregations_to_keep.
    repeat match goal with
    | |- context [String.eqb ?x ?y] => destruct (String.eqb x y)
    end; intros H; try discriminate; apply Ok_inj in H;
      injection H as <-; discriminate. }
  assert (Hdel : forall l, to_delete (Some keep) l = negb (str_in l keep)).
  { intros l. destruct keep; [contradiction|reflexivity]. }
  assert (Hl : labels =
               filter (fun l => negb (to_delete (Some keep) l))
                      (labels_of (unique_id kpi) agg_kind (kpi_values s))
               ++ (if existsb (matches_current (get_truncated_value now agg_kind))
                        (stored_values (unique_id kpi) agg_kind (kpi_values s))
                   then [] else [get_truncated_value now agg_kind])).
  { unfold labels, o. erewrite compute_completes by eassumption.
    cbn [final]. unfold with_kpi_values. cbn [kpi_values].
    apply labels_of_rows_after. }
  assert (Hincl : incl labels keep).
  { rewrite Hl. intros l Hin. apply in_app_or in Hin. destruct Hin as [Hin|Hin].
    - apply filter_In in Hin. destruct Hin as [_ Hin]. rewrite Hdel in Hin.
      apply str_in_In. destruct (str_in l keep); [reflexivity|discriminate].
    - destruct (existsb _ _); [destruct Hin|]. destruct Hin as [<-|[]].
      rewrite Hdel in Hcur. apply str_in_In.
      destruct (str_in _ keep); [reflexivity|discriminate]. }
  split; [exact Hincl|].
  intros Hnd. apply NoDup_incl_length; [|exact Hincl].
  unfold labels, o. erewrite compute_completes by eassumption.
  cbn [final]. unfold with_kpi_values. cbn [kpi_values].
  apply rows_after_unique. exact Hnd.
Qed.

(** Property X10: When the window of the reference period does not resolve
    (an unsupported granularity, a Monthly window in December, a date or a
    conversion out of range), the call raises the resolver's error having
    only read the stored Values: nothing is deleted, updated or added, and
    the KPI is not queried. *)
Theorem unresolved_window_leaves_session (now : Period) (kpi : Kpi RawData)
  (agg_kind : string) (s : Session Period RawData) (e : exn) :
  get_timestamps timestamp agg_kind now = Raise e ->
  compute_kpi_values_for_aggregation_kind timestamp now kpi agg_kind s
  = {| res := Raise e; final := s;
       emitted := [EvCompute now (unique_id kpi) agg_kind;
                   EvGetKpiValues (unique_id kpi) agg_kind] |}.
Proof.
  intros Ht. apply compute_raises.
  destruct (get_aggregations_to_keep agg_kind now) as [keep|e'] eqn:Hk.
  - right. split; [exists keep; reflexivity | exact Ht].
  - left. f_equal. revert Hk Ht.
    unfold get_aggregations_to_keep, get_timestamps.
    destruct (String.eqb agg_kind "D"); [discriminate|].
    destruct (String.eqb agg_kind "W"); [discriminate|].
    destruct (String.eqb agg_kind "M"); [discriminate|].
    destruct (String.eqb agg_kind "Y"); [discriminate|].
    congruence.
Qed.

End ComputeProperties.

Section TraceProperties.

Context {Period : Type} {PO : PeriodOps Period}.
Variable timestamp : datetime -> result Z.
Context {RawData : Type}.

(** Property X16: The reads and writes of a call that resolved its window: every
    event is about the KPI and granularity of the call; a deletion is of a
    stored label that the retention list leaves out; an update or an
    addition writes, under the current label, the number the KPI computes on
    the window; an addition is made only when the current label was not
    stored; the KPI is only queried on the window. *)
Theorem compute_events_in_scope (now : Period) (kpi : Kpi RawData)
  (agg_kind : string) (s : Session Period RawData) (ts : Timestamps)
  (keep : option (list string)) :
  get_aggregations_to_keep agg_kind now = Ok keep ->
  get_timestamps timestamp agg_kind now = Ok ts ->
  Forall (in_scope (unique_id kpi) agg_kind (get_truncated_value now agg_kind)
            keep (get_value kpi agg_kind (start ts) (stop ts) (raw_data s))
            (labels_of (unique_id kpi) agg_kind (kpi_values s)) ts)
         (emitted (compute_kpi_values_for_aggregation_kind timestamp now kpi
                     agg_kind s)).
Proof.
  intros Hk Ht. erewrite compute_completes by eassumption. cbn [emitted].
  set (id := unique_id kpi). set (cur := get_truncated_value now agg_kind).
  set (v := get_value kpi agg_kind (start ts) (stop ts) (raw_data s)).
  rewrite <- (labels_of_stored id agg_kind (kpi_values s)).
  set (vs := stored_values id agg_kind (kpi_values s)).
  constructor; [split; reflexivity|]. constructor; [split; reflexivity|].
  apply Forall_app. split.
  - apply Forall_flat_map. apply Forall_forall. intros x Hx.
    unfold scan_events. apply Forall_app. split.
    + destruct (to_delete keep (agg_value x)) eqn:Ed; constructor; [|constructor].
      cbn. repeat split; [|exact Ed]. apply in_map. exact Hx.
    + destruct (String.eqb_spec (agg_value x) cur) as [E|E]; [|constructor].
      constructor; [|constructor; [|constructor]]; cbn; auto.
  - destruct (existsb (matches_current cur) vs) eqn:Ee; [constructor|].
    constructor; [|constructor; [|constructor]]; cbn; auto.
    repeat split. intros Hin. apply in_map_iff in Hin.
    destruct Hin as [x [Hx1 Hx2]].
    assert (existsb (matches_current cur) vs = true); [|congruence].
    apply existsb_exists. exists x. split; [exact Hx2|].
    unfold matches_current. rewrite Hx1. apply String.eqb_refl.
Qed.

End TraceProperties.

(** ** What a tick and a restart write, and what they leave *)

Section LoopMembership.

Context {event S : Type}.

Lemma for_each_final_inv_in {X} (P : S -> Prop) (l : list X)
  (f : X -> Eff event S unit) :
  (forall x s, In x l -> P s -> P (final (f x s))) ->
  forall s, P s -> P (final (for_each l f s)).
Proof.
  induction l as [|x l IH]; intros Hf s Hs; [exact Hs|].
  rewrite for_each_cons. unfold bind.
  destruct (res (f x s)) eqn:E; cbn [final].
  - apply IH; [|apply Hf; [left; reflexivity|exact Hs]].
    intros y s' Hy. apply Hf. right. exact Hy.
  - apply Hf; [left; reflexivity|exact Hs].
Qed.

End LoopMembership.

Section TickProperties.

Context {Period : Type} {PO : PeriodOps Period}.
Variable timestamp : datetime -> result Z.
Context {RawData : Type}.

Lemma same_outside_refl ks (s : Session Period RawData) : same_outside ks s s.
Proof. repeat split. Qed.

Lemma same_outside_trans ks (s1 s2 s3 : Session Period RawData) :
  same_outside ks s1 s2 -> same_outside ks s2 s3 -> same_outside ks s1 s3.
Proof.
  intros [A1 [B1 C1]] [A2 [B2 C2]]. repeat split; congruence.
Qed.

Lemma untracked_of_others (ks : list (Kpi RawData)) k a l1 l2 :
  In k ks -> In a ["D"; "W"; "M"; "Y"] ->
  other_rows (unique_id k) a l1 = other_rows (unique_id k) a l2 ->
  untracked_rows ks l1 = untracked_rows ks l2.
Proof.
  intros Hk Ha H.
  assert (E : forall l, untracked_rows ks l
                        = untracked_rows ks (other_rows (unique_id k) a l)).
  { intros l. unfold untracked_rows, other_rows. rewrite filter_twice.
    apply filter_ext. intros r.
    destruct (row_in (unique_id k) a r) eqn:Er; [|reflexivity].
    cbn [negb andb]. unfold row_in in Er. apply andb_true_iff in Er.
    destruct Er as [Eid Ekind]. apply Z.eqb_eq in Eid.
    apply String.eqb_eq in Ekind.
    unfold tracked_row.
    replace (existsb (fun k0 => unique_id k0 =? row_kpi_id r) ks) with true.
    - replace (str_in (row_agg_kind r) ["D"; "W"; "M"; "Y"]) with true;
        [reflexivity|].
      symmetry. apply str_in_In. rewrite Ekind. exact Ha.
    - symmetry. apply existsb_exists. exists k. split; [exact Hk|].
      apply Z.eqb_eq. symmetry. exact Eid. }
  rewrite (E l1), (E l2), H. reflexivity.
Qed.

Lemma compute_same_outside (ks : list (Kpi RawData)) now k a
  (s : Session Period RawData) :
  In k ks -> In a ["D"; "W"; "M"; "Y"] ->
  same_outside ks s
    (final (compute_kpi_values_for_aggregation_kind timestamp now k a s)).
Proof.
  intros Hk Ha.
  destruct (compute_frame_all timestamp now k a s) as [A [B C]].
  split; [|split; assumption].
  eapply untracked_of_others; eassumption.
Qed.

Lemma hourly_pass_outside (ks0 ks : list (Kpi RawData)) reference s0
  (x : Processor Period RawData * Session Period RawData) :
  incl ks ks0 -> same_outside ks0 s0 (snd x) ->
  same_outside ks0 s0 (snd (final (hourly_pass timestamp reference ks x))).
Proof.
  intros Hi Hx. unfold hourly_pass.
  apply (for_each_final_inv_in (fun y => same_outside ks0 s0 (snd y)));
    [|exact Hx].
  intros k y Hk Hy.
  apply (for_each_final_inv_in (fun y => same_outside ks0 s0 (snd y)));
    [|exact Hy].
  intros a z Ha Hz. cbn [on_snd final snd].
  eapply same_outside_trans; [exact Hz|].
  apply compute_same_outside; [apply Hi, Hk|].
  simpl in *. tauto.
Qed.

Lemma yearly_pass_outside (ks0 ks : list (Kpi RawData)) reference s0
  (x : Processor Period RawData * Session Period RawData) :
  incl ks ks0 -> same_outside ks0 s0 (snd x) ->
  same_outside ks0 s0 (snd (final (yearly_pass timestamp reference ks x))).
Proof.
  intros Hi Hx. unfold yearly_pass.
  apply (for_each_final_inv_in (fun y => same_outside ks0 s0 (snd y)));
    [|exact Hx].
  intros k y Hk Hy. cbn [on_snd final snd].
  eapply same_outside_trans; [exact Hy|].
  apply compute_same_outside; [apply Hi, Hk|].
  simpl. tauto.
Qed.

Lemma same_period_tick now (st : Processor Period RawData)
  (s : Session Period RawData) :
  current_period st = now ->
  process_tick timestamp now (st, s)
  = {| res := Ok false; final := (st, s); emitted := [] |}.
Proof.
  intros E. unfold process_tick. rewrite bind_get_self. cbn [fst].
  destruct (period_eq_dec (current_period st) now); [reflexivity|contradiction].
Qed.

(** Property X11: A tick that raises has already moved [current_period] to
    its period and has changed nothing else of the processor; the same tick
    handed in again returns [False] without a read or a write, and whatever
    tick is handed in next makes all its calls with the period of the failed
    tick as reference, not the period stored before it. *)
Theorem tick_raise_skips_period (now : Period) (st : Processor Period RawData)
  (s : Session Period RawData) (e : exn) :
  let o := process_tick timestamp now (st, s) in
  res o = Raise e ->
  fst (final o) = set_current_period now st
  /\ process_tick timestamp now (final o)
     = {| res := Ok false; final := final o; emitted := [] |}
  /\ forall next,
       Forall (fun c : call => fst (fst c) = now)
              (calls (emitted (process_tick timestamp next (final o)))).
Proof.
  intros o Hr.
  assert (Hst : fst (final o) = set_current_period now st).
  { unfold o in *.
    destruct (period_eq_dec (current_period st) now) as [E|Hne].
    - rewrite (@same_period_tick now st s E) in Hr. discriminate.
    - rewrite process_tick_outcome in * by exact Hne. unfold tick_outcome in *.
      set (x1 := (set_current_period now st, s)) in *.
      assert (H1 := hourly_pass_self timestamp (current_period st) (kpis st) x1).
      set (o1 := hourly_pass timestamp (current_period st) (kpis st) x1) in *.
      assert (H2 := yearly_pass_self timestamp (current_period st) (kpis st) (final o1)).
      set (o2 := yearly_pass timestamp (current_period st) (kpis st) (final o1)) in *.
      destruct (res o1); [|cbn [final]; exact H1].
      destruct (String.eqb _ _); [discriminate|].
      destruct (res o2); [discriminate|].
      cbn [final]. rewrite H2. exact H1. }
  destruct (final o) as [st' s'] eqn:Ef. cbn [fst] in Hst.
  split; [exact Hst|]. split.
  - apply same_period_tick. rewrite Hst. reflexivity.
  - intros next.
    pose proof (process_tick_reference timestamp next st' s') as H.
    replace (current_period st') with now in H by (rewrite Hst; reflexivity).
    exact H.
Qed.

(** Property X12: A tick that returns gives [True] exactly when its period differs
    from the stored one; after a tick that returned [True] the day label of
    the processor is that of the tick's period, and a processor whose day
    label is that of its period is again so after any tick that returns. *)
Theorem tick_keeps_day_label (now : Period) (st : Processor Period RawData)
  (s : Session Period RawData) (b : bool) :
  let o := process_tick timestamp now (st, s) in
  res o = Ok b ->
  (b = true <-> current_period st <> now)
  /\ (b = true -> current_day (fst (final o)) = get_truncated_value now "D")
  /\ (day_in_step st -> day_in_step (fst (final o))).
Proof.
  intros o Hr. unfold o in *. unfold day_in_step.
  destruct (period_eq_dec (current_period st) now) as [E|Hne].
  - rewrite (@same_period_tick now st s E) in *. apply Ok_inj in Hr. subst b.
    cbn [final fst]. split; [split; [discriminate|contradiction]|].
    split; [discriminate|auto].
  - destruct (process_tick_state timestamp now (st, s)) as [Hp _].
    rewrite Hp. clear Hp.
    rewrite process_tick_outcome in * by exact Hne. unfold tick_outcome in *.
    set (x1 := (set_current_period now st, s)) in *.
    assert (H1 := hourly_pass_self timestamp (current_period st) (kpis st) x1).
    set (o1 := hourly_pass timestamp (current_period st) (kpis st) x1) in *.
    assert (H2 := yearly_pass_self timestamp (current_period st) (kpis st) (final o1)).
    set (o2 := yearly_pass timestamp (current_period st) (kpis st) (final o1)) in *.
    destruct (res o1); [|discriminate].
    destruct (String.eqb_spec (current_day st) (get_truncated_value now "D"))
      as [Ed|Ed].
    + cbn [res final] in *. apply Ok_inj in Hr. subst b. rewrite H1.
      cbn [x1 fst set_current_period current_day].
      split; [split; auto|]. split; auto.
    + destruct (res o2); [|discriminate].
      cbn [res final fst set_current_day current_day] in *.
      apply Ok_inj in Hr. subst b.
      split; [split; auto|]. split; auto.
Qed.

(** Property X13: A processor that tracks no KPI, as [__init__] leaves it: a tick
    for another period returns [True], moves the period and the day label,
    and makes no call at all; [restore_from_db] only reads the persisted
    marker.  Neither can raise, December included. *)
Theorem no_kpi_no_calls (now : Period) (st : Processor Period RawData)
  (s : Session Period RawData) :
  kpis st = [] ->
  (current_period st <> now ->
   process_tick timestamp now (st, s)
   = {| res := Ok true;
        final := ({| kpis := []; current_period := now;
                     current_day := get_truncated_value now "D" |}, s);
        emitted := [] |})
  /\ restore_from_db timestamp (st, s)
     = {| res := Ok tt; final := (st, s); emitted := [EvGetLastCurrentPeriod] |}.
Proof.
  intros Hk. split.
  - intros Hne. rewrite process_tick_outcome by exact Hne.
    unfold tick_outcome. rewrite Hk.
    cbn [hourly_pass yearly_pass for_each foldM ret res final emitted app
         set_current_period set_current_day fst snd kpis].
    unfold set_current_day, set_current_period.
    cbn [kpis current_period current_day]. rewrite Hk.
    destruct (String.eqb_spec (current_day st) (get_truncated_value now "D"))
      as [Ed|Ed]; [rewrite Ed|]; reflexivity.
  - rewrite restore_from_db_outcome. unfold restore_outcome. rewrite Hk.
    destruct (last_current_period s) as [lp|]; [|reflexivity].
    destruct (period_eq_dec lp (current_period st));
      cbn [hourly_pass yearly_pass for_each foldM ret res final emitted app];
      destruct (String.eqb _ _); reflexivity.
Qed.

(** Property X14: What a tick and a restart never write, whether they return or
    raise: the rows of KPIs the processor does not track and the rows under
    a granularity other than the four, the persisted period marker, and the
    raw events. *)
Theorem tick_and_restore_frame (now : Period) (st : Processor Period RawData)
  (s : Session Period RawData) :
  same_outside (kpis st) s (snd (final (process_tick timestamp now (st, s))))
  /\ same_outside (kpis st) s (snd (final (restore_from_db timestamp (st, s)))).
Proof.
  split.
  - destruct (period_eq_dec (current_period st) now) as [E|Hne].
    + rewrite (@same_period_tick now st s E). apply same_outside_refl.
    + rewrite process_tick_outcome by exact Hne. unfold tick_outcome.
      set (x1 := (set_current_period now st, s)).
      assert (H1 : same_outside (kpis st) s
                     (snd (final (hourly_pass timestamp (current_period st) (kpis st) x1))))
        by (apply hourly_pass_outside; [apply incl_refl|apply same_outside_refl]).
      set (o1 := hourly_pass timestamp (current_period st) (kpis st) x1) in *.
      assert (H2 : same_outside (kpis st) s
                     (snd (final (yearly_pass timestamp (current_period st) (kpis st) (final o1)))))
        by (apply yearly_pass_outside; [apply incl_refl|exact H1]).
      set (o2 := yearly_pass timestamp (current_period st) (kpis st) (final o1)) in *.
      destruct (res o1); [|exact H1].
      destruct (String.eqb _ _); [exact H1|].
      destruct (res o2); exact H2.
  - rewrite restore_from_db_outcome. unfold restore_outcome.
    destruct (last_current_period s) as [lp|] eqn:El;
      [|apply same_outside_refl].
    set (o1 := if period_eq_dec lp (current_period st) then ret tt (st, s)
               else hourly_pass timestamp lp (kpis st) (st, s)).
    assert (H1 : same_outside (kpis st) s (snd (final o1))).
    { unfold o1. destruct (period_eq_dec lp (current_period st));
        [apply same_outside_refl|].
      apply hourly_pass_outside; [apply incl_refl|apply same_outside_refl]. }
    assert (H2 : same_outside (kpis st) s
                   (snd (final (yearly_pass timestamp lp (kpis st) (final o1)))))
      by (apply yearly_pass_outside; [apply incl_refl|exact H1]).
    destruct (res o1); [|exact H1].
    destruct (String.eqb _ _); [exact H1|exact H2].
Qed.

(** Property X15: A restart with nothing to replay: when the persisted period is the
    period of the processor and the day label of the processor is that of
    its period, [restore_from_db] reads the marker and does nothing else,
    whatever KPIs are tracked. *)
Theorem restore_up_to_date (st : Processor Period RawData)
  (s : Session Period RawData) :
  last_current_period s = Some (current_period st) ->
  day_in_step st ->
  restore_from_db timestamp (st, s)
  = {| res := Ok tt; final := (st, s); emitted := [EvGetLastCurrentPeriod] |}.
Proof.
  intros Hl Hd. rewrite restore_from_db_outcome. unfold restore_outcome.
  rewrite Hl.
  destruct (period_eq_dec (current_period st) (current_period st)) as [_|N];
    [|contradiction].
  cbn [ret res final emitted]. unfold day_in_step in Hd.
  rewrite <- Hd, String.eqb_refl. reflexivity.
Qed.

End TickProperties.

(** ** Runs on the calendar of hourly periods *)

Import Calendar Scenario.

Ltac resolve_windows :=
  intros a Ha; simpl in Ha;
  destruct Ha as [<-|[<-|[<-|[<-|[]]]]]; eexists; vm_compute; reflexivity.

(** The Monthly window of 2024-03-15 14:00 is
    [2024-03-01T00:00, 2024-04-01T00:00). *)
Lemma monthly_window_march_2024 :
  get_timestamps utc_timestamp "M" (at_hour 2024 3 15 14)
  = window_between utc_timestamp
      {| dt_year := 2024; dt_month := 3; dt_day := 1 |}
      {| dt_year := 2024; dt_month := 4; dt_day := 1 |}
  /\ get_timestamps utc_timestamp "M" (at_hour 2024 3 15 14)
     = Ok {| start := 1709251200; stop := 1711929600 |}.
Proof. split; vm_compute; reflexivity. Qed.

(** The conversion of midnight of 0001-01-01 raises, and with it every
    window that starts there. *)
Lemma first_day_windows_raise :
  utc_timestamp {| dt_year := 1; dt_month := 1; dt_day := 1 |} = Raise ValueError
  /\ get_timestamps utc_timestamp "D" (at_hour 1 1 1 0) = Raise ValueError
  /\ get_timestamps utc_timestamp "W" (at_hour 1 1 1 0) = Raise ValueError
  /\ get_timestamps utc_timestamp "M" (at_hour 1 1 1 0) = Raise ValueError
  /\ get_timestamps utc_timestamp "Y" (at_hour 1 1 1 0) = Raise ValueError
  /\ get_timestamps utc_timestamp "D" (at_hour 1 1 2 0)
     = Ok {| start := -62135510400; stop := -62135424000 |}.
Proof. repeat split; vm_compute; reflexivity. Qed.

(** Claim C2, at a December reference: the stop of the Monthly window is
    built with month 13, so for 2024-12-15 14:00 the window resolver raises
    [ValueError] where the claim has [2024-12-01T00:00, 2025-01-01T00:00). *)
Theorem monthly_window_december_2024 :
  get_timestamps utc_timestamp "M" (at_hour 2024 12 15 14) = Raise ValueError
  /\ PyDatetime.new 2024 (12 + 1) 1 = Raise ValueError
  /\ PyDatetime.new 2025 1 1 = Ok {| dt_year := 2025; dt_month := 1; dt_day := 1 |}.
Proof. repeat split; vm_compute; reflexivity. Qed.

(** Claim C1 as stated fails: two Values left under the current Daily label
    are both refreshed and both kept. *)
Lemma duplicate_labels_survive :
  let o := compute_kpi_values_for_aggregation_kind utc_timestamp (at_hour 2024 3 15 14)
             visits "D" (session_of duplicated_rows None march_visits) in
  res o = Ok tt
  /\ ~ NoDup (labels_of 1 "D" (kpi_values (final o))).
Proof.
  split; [vm_compute; reflexivity|].
  vm_compute. intros H. inversion H as [|? ? Hin _]. apply Hin. left. reflexivity.
Qed.

(** On rows with two stale Values under 2024-03-01: both are deleted, the
    row of 2024-03-14 is kept and a Value is created for 2024-03-15. *)
Lemma compute_keeps_labels_unique_witness :
  let o := compute_kpi_values_for_aggregation_kind utc_timestamp
             (at_hour 2024 3 15 14) visits "D" Runs.stale_session in
  let current_agg_value := get_truncated_value (at_hour 2024 3 15 14) "D" in
  let kpi_value := get_value visits "D" (start Runs.march_15_window)
                     (stop Runs.march_15_window) (raw_data Runs.stale_session) in
  let stored := labels_of (unique_id visits) "D" (kpi_values Runs.stale_session) in
  let remaining := labels_of (unique_id visits) "D" (kpi_values (final o)) in
  exists aggregations_to_keep,
    get_aggregations_to_keep "D" (at_hour 2024 3 15 14) = Ok aggregations_to_keep
    /\ res o = Ok tt
    /\ kpi_values (final o)
       = map (fun r => if row_is (unique_id visits) "D" current_agg_value r
                       then set_kpi_value kpi_value r else r)
             (filter (fun r => negb (row_in (unique_id visits) "D" r
                                     && to_delete aggregations_to_keep
                                          (row_agg_value r)))
                     (kpi_values Runs.stale_session))
         ++ (if str_in current_agg_value stored then []
             else [{| row_kpi_id := unique_id visits; row_agg_kind := "D";
                      row_agg_value := current_agg_value;
                      row_kpi_value := kpi_value |}])
    /\ remaining = filter (fun l => negb (to_delete aggregations_to_keep l)) stored
                   ++ (if str_in current_agg_value stored then []
                       else [current_agg_value])
    /\ (NoDup remaining
        <-> NoDup (filter (fun l => negb (to_delete aggregations_to_keep l))
                          stored))
    /\ (forall r, In r (kpi_values (final o)) ->
          row_is (unique_id visits) "D" current_agg_value r = true ->
          row_kpi_value r = kpi_value)
    /\ additions (emitted o) =
       if str_in current_agg_value stored then []
       else [EvAddKpiValue (unique_id visits) "D" current_agg_value kpi_value].
Proof.
  apply (@compute_keeps_labels_unique _ _ utc_timestamp _ (at_hour 2024 3 15 14)
           visits "D" Runs.stale_session Runs.march_15_window).
  vm_compute. reflexivity.
Defined.

(** The same run, evaluated: the labels stored before are not pairwise
    distinct, those left are. *)
Lemma stale_duplicates_pruned :
  let o := compute_kpi_values_for_aggregation_kind utc_timestamp
             (at_hour 2024 3 15 14) visits "D" Runs.stale_session in
  labels_of 1 "D" (kpi_values Runs.stale_session)
    = ["2024-03-01"; "2024-03-01"; "2024-03-14"]
  /\ labels_of 1 "D" (kpi_values (final o)) = ["2024-03-14"; "2024-03-15"]
  /\ kpi_values (final o)
     = [row 1 "D" "2024-03-14" 7; row 2 "D" "2024-03-01" 7;
        row 1 "D" "2024-03-15" 3]
  /\ additions (emitted o) = [EvAddKpiValue 1 "D" "2024-03-15" 3].
Proof. repeat split; vm_compute; reflexivity. Qed.

(** Twice on the March rows with reference 2024-03-15 14:00. *)
Lemma compute_twice_witness :
  let o1 := compute_kpi_values_for_aggregation_kind utc_timestamp
              (at_hour 2024 3 15 14) visits "D" march_session in
  let o2 := compute_kpi_values_for_aggregation_kind utc_timestamp
              (at_hour 2024 3 15 14) visits "D" (final o1) in
  final o2 = final o1 /\ res o2 = res o1 /\ additions (emitted o2) = [].
Proof.
  apply (compute_twice utc_timestamp (at_hour 2024 3 15 14) visits "D"
           march_session).
  vm_compute. reflexivity.
Defined.

(** An hourly granularity "H" is not supported. *)
Lemma unsupported_granularity_raises_witness :
  get_timestamps utc_timestamp "H" (at_hour 2024 3 15 14) = Raise AttributeError
  /\ get_aggregations_to_keep "H" (at_hour 2024 3 15 14) = Raise AttributeError.
Proof.
  refine (unsupported_granularity_raises utc_timestamp (agg_kind := "H") (at_hour 2024 3 15 14) _ _ _ _);
    discriminate.
Defined.

(** Claim C9 as stated fails: a tick for 13:00 handed to a processor at
    14:00 of the same day moves [current_period] back to 13:00. *)
Lemma tick_rewinds_current_period :
  let st := tracking (at_hour 2024 3 15 14) in
  let o := process_tick utc_timestamp (at_hour 2024 3 15 13)
             (st, session_of [] None march_visits) in
  res o = Ok true
  /\ earlier (current_period (fst (final o))) (current_period st).
Proof. split; vm_compute; reflexivity. Qed.

(** Claim C4 as stated fails: a processor created at midnight of 2024-03-15
    and ticked at each of the 24 hours of that day never runs the Yearly
    recomputation. *)
Lemma yearly_skipped_on_first_day :
  let outs := process_ticks utc_timestamp (hours_of 2024 3 15)
                (tracking (at_hour 2024 3 15 0),
                 session_of [] None march_visits) in
  map (fun p => get_truncated_value p "D") (hours_of 2024 3 15)
    = repeat "2024-03-15" 24
  /\ map (@res _ _ _) outs = Ok false :: repeat (Ok true) 23
  /\ List.concat (map (fun o => yearly_calls (emitted o)) outs) = [].
Proof. repeat split; vm_compute; reflexivity. Qed.

(** The 24 hours of 2024-03-15 after a last tick at 23:00 the day before:
    Yearly runs at the midnight tick only. *)
Lemma yearly_gating_witness :
  let st := tracking (at_hour 2024 3 14 23) in
  let outs := process_ticks utc_timestamp (hours_of 2024 3 15)
                (st, session_of [] None march_visits) in
  Forall (fun o => exists b, res o = Ok b) outs
  /\ map (fun o => yearly_calls (emitted o)) outs =
     [(at_hour 2024 3 14 23, 1, "Y")] :: map (fun _ => []) (later_hours 2024 3 15)
  /\ map (fun o => hourly_calls (emitted o)) outs =
     map (fun pr => if period_eq_dec (fst pr) (snd pr) then []
                    else hourly_jobs (fst pr) [visits])
         (combine (at_hour 2024 3 14 23 :: hours_of 2024 3 15) (hours_of 2024 3 15)).
Proof.
  refine (yearly_gating (timestamp := utc_timestamp)
            (d := "2024-03-15") (now := at_hour 2024 3 15 0)
            (nows := later_hours 2024 3 15)
            (tracking (at_hour 2024 3 14 23))
            (session_of [] None march_visits) _ _ _ _).
  - reflexivity.
  - repeat constructor.
  - resolve_windows.
  - repeat (constructor; [resolve_windows|]). constructor.
Defined.

(** A restart on 2024-03-15 at 08:00 with 2024-03-14 22:00 persisted: the
    four granularities are replayed for the persisted period. *)
Lemma restore_from_db_replays_witness :
  let st := tracking (at_hour 2024 3 15 8) in
  let s := session_of [] (Some (at_hour 2024 3 14 22)) march_visits in
  let o := restore_from_db utc_timestamp (st, s) in
  fst (final o) = st
  /\ prefix (calls (emitted o))
       [(at_hour 2024 3 14 22, 1, "D"); (at_hour 2024 3 14 22, 1, "W");
        (at_hour 2024 3 14 22, 1, "M"); (at_hour 2024 3 14 22, 1, "Y")]
  /\ (res o = Ok tt ->
      calls (emitted o) =
       [(at_hour 2024 3 14 22, 1, "D"); (at_hour 2024 3 14 22, 1, "W");
        (at_hour 2024 3 14 22, 1, "M"); (at_hour 2024 3 14 22, 1, "Y")])
  /\ (windows_resolve utc_timestamp (at_hour 2024 3 14 22) -> res o = Ok tt).
Proof.
  exact (restore_from_db_replays utc_timestamp (tracking (at_hour 2024 3 15 8))
           (session_of [] (Some (at_hour 2024 3 14 22)) march_visits)).
Defined.

(** Claim C5, at a December marker: a restart on 2025-01-01 at 08:00 with
    2024-12-31 23:00 persisted and two KPIs tracked.  The persisted period
    differs from [current_period] and its day label from [current_day], so
    the claim has Daily, Weekly and Monthly replayed for both KPIs and then
    Yearly for both.  The Monthly call for the first KPI raises
    [ValueError] (the Monthly window of a December period does not
    resolve): nothing is replayed for the second KPI, no Yearly call is
    made, and only the Daily and Weekly Values of the first KPI are stored.
    The processor is left as it was. *)
Theorem restore_december_marker_raises :
  let st := Runs.tracking_two (at_hour 2025 1 1 8) in
  let lastPeriod := at_hour 2024 12 31 23 in
  let o := restore_from_db utc_timestamp (st, Runs.december_marker_session) in
  last_current_period Runs.december_marker_session = Some lastPeriod
  /\ lastPeriod <> current_period st
  /\ get_truncated_value lastPeriod "D" <> current_day st
  /\ map (@unique_id _) (kpis st) = [1; 2]
  /\ res o = Raise ValueError
  /\ calls (emitted o)
     = [(lastPeriod, 1, "D"); (lastPeriod, 1, "W"); (lastPeriod, 1, "M")]
  /\ map row_key (kpi_values (snd (final o)))
     = [(1, "D", "2024-12-31"); (1, "W", "W2024-12-30")]
  /\ fst (final o) = st.
Proof.
  repeat split; try (vm_compute; reflexivity);
    intros H; vm_compute in H; discriminate H.
Qed.

(** Claim C10, at the year boundary: the tick for 2025-01-01 00:00 handed
    to a processor at 2024-12-31 23:00 recomputes Daily and Weekly for the
    old period, then raises [ValueError] in the Monthly recomputation (the
    Monthly window of a December period does not resolve): no Yearly
    recomputation is made for the closing year and [current_day] stays on
    2024-12-31, while [current_period] has moved.  The next tick, for 01:00,
    then makes the Yearly call with 2025-01-01 00:00 as reference and
    creates the Value of 2025. *)
Theorem year_boundary_tick_raises :
  let st := tracking (at_hour 2024 12 31 23) in
  let outs := process_ticks utc_timestamp
                [at_hour 2025 1 1 0; at_hour 2025 1 1 1]
                (st, session_of [] None march_visits) in
  map (@res _ _ _) outs = [Raise ValueError; Ok true]
  /\ map (fun o => calls (emitted o)) outs =
     [[(at_hour 2024 12 31 23, 1, "D"); (at_hour 2024 12 31 23, 1, "W");
       (at_hour 2024 12 31 23, 1, "M")];
      [(at_hour 2025 1 1 0, 1, "D"); (at_hour 2025 1 1 0, 1, "W");
       (at_hour 2025 1 1 0, 1, "M"); (at_hour 2025 1 1 0, 1, "Y")]]
  /\ map (fun o => current_day (fst (final o))) outs
     = ["2024-12-31"; "2025-01-01"]
  /\ map (fun o => current_period (fst (final o))) outs
     = [at_hour 2025 1 1 0; at_hour 2025 1 1 1]
  /\ map (fun o => labels_of 1 "Y" (kpi_values (snd (final o)))) outs
     = [[]; ["2025"]].
Proof. repeat split; vm_compute; reflexivity. Qed.

(** ** Further runs on the calendar of hourly periods *)

Import Runs.

Ltac by_calc :=
  vm_compute; repeat split; intros; try discriminate; try reflexivity.

(** The Daily window of 2024-12-31 ends with the year. *)
Lemma daily_window_next_day_witness :
  exists stop_dt,
    get_timestamps utc_timestamp "D" (at_hour 2024 12 31 23)
      = window_between utc_timestamp (reference_date (at_hour 2024 12 31 23))
          stop_dt
    /\ valid_date stop_dt
    /\ toordinal stop_dt = toordinal (reference_date (at_hour 2024 12 31 23)) + 1.
Proof.
  apply (@daily_window_next_day _ _ utc_timestamp (at_hour 2024 12 31 23)); by_calc.
Defined.

(** The Weekly window of Friday 2024-03-15. *)
Lemma weekly_window_monday_witness :
  exists start_dt stop_dt,
    get_timestamps utc_timestamp "W" (at_hour 2024 3 15 14)
      = window_between utc_timestamp start_dt stop_dt
    /\ toordinal start_dt
       = toordinal (reference_date (at_hour 2024 3 15 14))
         - (weekday (at_hour 2024 3 15 14) - 1)
    /\ toordinal stop_dt = toordinal start_dt + 7
    /\ toordinal start_dt <= toordinal (reference_date (at_hour 2024 3 15 14))
       < toordinal stop_dt
    /\ (weekday (at_hour 2024 3 15 14)
        = isoweekday (reference_date (at_hour 2024 3 15 14)) ->
        isoweekday start_dt = 1).
Proof.
  apply (@weekly_window_monday _ _ utc_timestamp (at_hour 2024 3 15 14)); by_calc.
Defined.

(** The Monthly window of 2024-02-29. *)
Lemma monthly_window_calendar_month_witness :
  (month (at_hour 2024 2 29 23) <= 11 ->
   exists start_dt stop_dt,
     get_timestamps utc_timestamp "M" (at_hour 2024 2 29 23)
       = window_between utc_timestamp start_dt stop_dt
     /\ toordinal start_dt
        = toordinal (reference_date (at_hour 2024 2 29 23))
          - (day (at_hour 2024 2 29 23) - 1)
     /\ toordinal stop_dt
        = toordinal start_dt
          + days_in_month (year (at_hour 2024 2 29 23)) (month (at_hour 2024 2 29 23))
     /\ toordinal start_dt <= toordinal (reference_date (at_hour 2024 2 29 23))
        < toordinal stop_dt)
  /\ (month (at_hour 2024 2 29 23) = 12 ->
      get_timestamps utc_timestamp "M" (at_hour 2024 2 29 23) = Raise ValueError).
Proof.
  apply (@monthly_window_calendar_month _ _ utc_timestamp (at_hour 2024 2 29 23));
    by_calc.
Defined.

(** The Daily windows of 2024-02-29 and 2024-03-01, and the Weekly windows
    of 2024-02-29 and 2024-03-07. *)
Lemma daily_weekly_windows_abut_witness :
  (get_timestamps utc_timestamp "D" (at_hour 2024 2 29 23)
     = Ok {| start := 1709164800; stop := 1709251200 |}
   /\ get_timestamps utc_timestamp "D" (at_hour 2024 3 1 0)
     = Ok {| start := 1709251200; stop := 1709337600 |}
   /\ stop {| start := 1709164800; stop := 1709251200 |}
      = start {| start := 1709251200; stop := 1709337600 |})
  /\ (get_timestamps utc_timestamp "W" (at_hour 2024 2 29 23)
        = Ok {| start := 1708905600; stop := 1709510400 |}
      /\ get_timestamps utc_timestamp "W" (at_hour 2024 3 7 5)
        = Ok {| start := 1709510400; stop := 1710115200 |}
      /\ stop {| start := 1708905600; stop := 1709510400 |}
         = start {| start := 1709510400; stop := 1710115200 |}).
Proof.
  assert (HD : get_timestamps utc_timestamp "D" (at_hour 2024 2 29 23)
               = Ok {| start := 1709164800; stop := 1709251200 |})
    by (vm_compute; reflexivity).
  assert (HQ : get_timestamps utc_timestamp "D" (at_hour 2024 3 1 0)
               = Ok {| start := 1709251200; stop := 1709337600 |})
    by (vm_compute; reflexivity).
  assert (HW : get_timestamps utc_timestamp "W" (at_hour 2024 2 29 23)
               = Ok {| start := 1708905600; stop := 1709510400 |})
    by (vm_compute; reflexivity).
  assert (HV : get_timestamps utc_timestamp "W" (at_hour 2024 3 7 5)
               = Ok {| start := 1709510400; stop := 1710115200 |})
    by (vm_compute; reflexivity).
  split; (split; [assumption|]; split; [assumption|]).
  - refine (proj1 (@daily_weekly_windows_abut _ _ utc_timestamp
                     (at_hour 2024 2 29 23) (at_hour 2024 3 1 0) _ _ _) _ HD HQ);
      by_calc.
  - refine (proj2 (@daily_weekly_windows_abut _ _ utc_timestamp
                     (at_hour 2024 2 29 23) (at_hour 2024 3 7 5) _ _ _) _ _ HW HV);
      by_calc.
Defined.

(** On the March rows with reference 2024-03-15 14:00. *)
Lemma compute_stores_current_witness :
  let o := compute_kpi_values_for_aggregation_kind utc_timestamp
             (at_hour 2024 3 15 14) visits "D" march_session in
  let current_agg_value := get_truncated_value (at_hour 2024 3 15 14) "D" in
  res o = Ok tt
  /\ In current_agg_value (labels_of (unique_id visits) "D" (kpi_values (final o)))
  /\ forall r, In r (kpi_values (final o)) ->
       row_is (unique_id visits) "D" current_agg_value r = true ->
       row_kpi_value r
       = get_value visits "D" (start march_15_window) (stop march_15_window)
           (raw_data march_session).
Proof.
  apply (@compute_stores_current _ _ utc_timestamp _ (at_hour 2024 3 15 14)
           visits "D" march_session march_15_window); vm_compute; reflexivity.
Defined.

(** On the March rows with reference 2024-03-15 14:00: the labels left are
    among the seven of the week. *)
Lemma compute_retention_bound_witness :
  let o := compute_kpi_values_for_aggregation_kind utc_timestamp
             (at_hour 2024 3 15 14) visits "D" march_session in
  let labels := labels_of (unique_id visits) "D" (kpi_values (final o)) in
  incl labels march_week_labels
  /\ (NoDup (labels_of (unique_id visits) "D" (kpi_values march_session)) ->
      (List.length labels <= List.length march_week_labels)%nat).
Proof.
  apply (@compute_retention_bound _ _ utc_timestamp _ (at_hour 2024 3 15 14)
           visits "D" march_session march_15_window march_week_labels);
    vm_compute; reflexivity.
Defined.

(** A Monthly call with a December reference. *)
Lemma unresolved_window_leaves_session_witness :
  compute_kpi_values_for_aggregation_kind utc_timestamp
    (at_hour 2024 12 15 14) visits "M" march_session
  = {| res := Raise ValueError; final := march_session;
       emitted := [EvCompute (at_hour 2024 12 15 14) (unique_id visits) "M";
                   EvGetKpiValues (unique_id visits) "M"] |}.
Proof.
  apply (@unresolved_window_leaves_session _ _ utc_timestamp _
           (at_hour 2024 12 15 14) visits "M" march_session ValueError).
  vm_compute. reflexivity.
Defined.

(** The tick for 2025-01-01 00:00 handed to a processor at
    2024-12-31 23:00 raises. *)
Lemma tick_raise_skips_period_witness :
  let o := process_tick utc_timestamp (at_hour 2025 1 1 0)
             (tracking (at_hour 2024 12 31 23), march_session) in
  fst (final o) = set_current_period (at_hour 2025 1 1 0)
                    (tracking (at_hour 2024 12 31 23))
  /\ process_tick utc_timestamp (at_hour 2025 1 1 0) (final o)
     = {| res := Ok false; final := final o; emitted := [] |}
  /\ forall next,
       Forall (fun c : call => fst (fst c) = at_hour 2025 1 1 0)
              (calls (emitted (process_tick utc_timestamp next (final o)))).
Proof.
  apply (@tick_raise_skips_period _ _ utc_timestamp _ (at_hour 2025 1 1 0)
           (tracking (at_hour 2024 12 31 23)) march_session ValueError).
  vm_compute. reflexivity.
Defined.

(** The midnight tick of 2024-03-15 after a last tick at 23:00. *)
Lemma tick_keeps_day_label_witness :
  let st := tracking (at_hour 2024 3 14 23) in
  let o := process_tick utc_timestamp (at_hour 2024 3 15 0) (st, march_session) in
  (true = true <-> current_period st <> at_hour 2024 3 15 0)
  /\ (true = true ->
      current_day (fst (final o)) = get_truncated_value (at_hour 2024 3 15 0) "D")
  /\ (day_in_step st -> day_in_step (fst (final o))).
Proof.
  apply (@tick_keeps_day_label _ _ utc_timestamp _ (at_hour 2024 3 15 0)
           (tracking (at_hour 2024 3 14 23)) march_session true).
  vm_compute. reflexivity.
Defined.

(** A processor just created, at the end of December. *)
Lemma no_kpi_no_calls_witness :
  (current_period created_in_december <> at_hour 2025 1 1 0 ->
   process_tick utc_timestamp (at_hour 2025 1 1 0)
     (created_in_december, march_session)
   = {| res := Ok true;
        final := ({| kpis := []; current_period := at_hour 2025 1 1 0;
                     current_day := get_truncated_value (at_hour 2025 1 1 0) "D" |},
                  march_session);
        emitted := [] |})
  /\ restore_from_db utc_timestamp (created_in_december, march_session)
     = {| res := Ok tt; final := (created_in_december, march_session);
          emitted := [EvGetLastCurrentPeriod] |}.
Proof.
  apply (@no_kpi_no_calls _ _ utc_timestamp _ (at_hour 2025 1 1 0)
           created_in_december march_session).
  reflexivity.
Defined.

(** A restart at 2024-03-15 08:00 with that period persisted. *)
Lemma restore_up_to_date_witness :
  restore_from_db utc_timestamp (tracking (at_hour 2024 3 15 8), marked_session)
  = {| res := Ok tt;
       final := (tracking (at_hour 2024 3 15 8), marked_session);
       emitted := [EvGetLastCurrentPeriod] |}.
Proof.
  apply (@restore_up_to_date _ _ utc_timestamp _
           (tracking (at_hour 2024 3 15 8)) marked_session);
    vm_compute; reflexivity.
Defined.

(** On the March rows with reference 2024-03-15 14:00. *)
Lemma compute_events_in_scope_witness :
  Forall (in_scope (unique_id visits) "D"
            (get_truncated_value (at_hour 2024 3 15 14) "D")
            (Some march_week_labels)
            (get_value visits "D" (start march_15_window) (stop march_15_window)
               (raw_data march_session))
            (labels_of (unique_id visits) "D" (kpi_values march_session))
            march_15_window)
         (emitted (compute_kpi_values_for_aggregation_kind utc_timestamp
                     (at_hour 2024 3 15 14) visits "D" march_session)).
Proof.
  apply (@compute_events_in_scope _ _ utc_timestamp _ (at_hour 2024 3 15 14)
           visits "D" march_session march_15_window (Some march_week_labels));
    vm_compute; reflexivity.
Defined.
